(** * light-monitor-kyiv: the outage-schedule notifier of [main.py]

    A shallow embedding of [main.py] and the properties of its schedule
    pipeline (slot encoding, interval merge, rendering), of the delivery
    chunker and of the revision gate.

    Conventions of the embedding:
    - a Python [str] is the list of its code points ([pystr]), so [len] is
      [length] and slicing is [firstn]/[skipn];
    - a Python [int] is a [Z]; a Python [float] is an IEEE-754 binary64 value
      of [SpecFloat] ([spec_float] with [prec = 53], [emax = 1024]);
    - a parsed JSON document is a [json] tree whose objects keep insertion
      order (a [dict] is an association list, looked up at the first match);
    - a function that can raise returns a [result]; [send_telegram_message]
      and [main], which touch the marker file and the Telegram endpoint,
      thread a [world] through an error-and-state monad;
    - the marker file is a text file: [marker] is the text it holds, a write
      turns every ["\n"] into the platform's line separator and fails on a
      character the file encoding cannot encode, a read turns the line
      endings ["\r\n"] and ["\r"] into ["\n"]; both the encoding and the line
      separator belong to the surroundings of a run;
    - [print] calls have no model: standard output is taken to print what
      the file encoding can encode and the program's own messages; of a
      request to Telegram the text is kept, the other fields of the payload
      being constants; failures of the file system other than a missing
      marker file are not part of the model. *)

From Stdlib Require Import String Ascii.
From Stdlib Require Import ZArith List Bool Lia QArith Qpower Qfield.
From Stdlib Require Import SpecFloat.
From Stdlib Require Import Sorted Permutation.
Import ListNotations.

Local Open Scope Z_scope.
Local Set Warnings "-register-all".

(* ================================================================= *)
(** ** Python strings *)

Definition pystr := list Z.

(** Literals are written as UTF-8 Rocq strings and decoded to code points. *)
Fixpoint utf8_go (pending : Z) (need : nat) (bs : list Z) : pystr :=
  match bs with
  | [] => []
  | b :: r =>
      if b <? 128 then b :: utf8_go 0 0%nat r
      else if b <? 192 then
        let cp := pending * 64 + (b - 128) in
        match need with
        | 1%nat => cp :: utf8_go 0 0%nat r
        | _ => utf8_go cp (Nat.pred need) r
        end
      else if b <? 224 then utf8_go (b - 192) 1%nat r
      else if b <? 240 then utf8_go (b - 224) 2%nat r
      else utf8_go (b - 240) 3%nat r
  end.

Definition u (s : string) : pystr :=
  utf8_go 0 0%nat (map (fun a => Z.of_N (N_of_ascii a)) (list_ascii_of_string s)).

Fixpoint pystr_eqb (a b : pystr) : bool :=
  match a, b with
  | [], [] => true
  | x :: a', y :: b' => (x =? y) && pystr_eqb a' b'
  | _, _ => false
  end.

(** [sep.join(parts)] *)
Fixpoint join (sep : pystr) (parts : list pystr) : pystr :=
  match parts with
  | [] => []
  | [p] => p
  | p :: rest => p ++ sep ++ join sep rest
  end.

(** [Some rest] when [s = pre ++ rest] ([s.startswith(pre)]). *)
Fixpoint strip_prefix (pre s : pystr) : option pystr :=
  match pre, s with
  | [], _ => Some s
  | _ :: _, [] => None
  | x :: pre', y :: s' => if x =? y then strip_prefix pre' s' else None
  end.

(** The first occurrence of [sep] in [s], as the text before it and the text
    after it ([s.partition(sep)] when [sep] occurs). *)
Fixpoint find_sep (sep s : pystr) : option (pystr * pystr) :=
  match strip_prefix sep s with
  | Some rest => Some ([], rest)
  | None =>
      match s with
      | [] => None
      | c :: s' =>
          match find_sep sep s' with
          | Some (before, rest) => Some (c :: before, rest)
          | None => None
          end
      end
  end.

(** [s.split(sep)] for a non-empty [sep]: cut at the first occurrence and
    go on in what follows it. Each cut consumes at least one character, so
    [length s] rounds are enough. *)
Fixpoint split_fuel (fuel : nat) (sep s : pystr) : list pystr :=
  match fuel with
  | O => [s]
  | S fuel' =>
      match find_sep sep s with
      | None => [s]
      | Some (before, rest) => before :: split_fuel fuel' sep rest
      end
  end.

Definition split (sep s : pystr) : list pystr := split_fuel (length s) sep s.

(** [s.replace(old, new)] for a non-empty [old]. *)
Fixpoint replace_fuel (fuel : nat) (old new s : pystr) : pystr :=
  match fuel with
  | O => s
  | S fuel' =>
      match find_sep old s with
      | None => s
      | Some (before, rest) => before ++ new ++ replace_fuel fuel' old new rest
      end
  end.

Definition replace (old new s : pystr) : pystr :=
  replace_fuel (length s) old new s.

(** [str.isspace] on one character, and [s.strip()]. *)
Definition is_space (c : Z) : bool :=
  ((9 <=? c) && (c <=? 13)) || ((28 <=? c) && (c <=? 32))
  || (c =? 133) || (c =? 160) || (c =? 5760)
  || ((8192 <=? c) && (c <=? 8202))
  || (c =? 8232) || (c =? 8233) || (c =? 8239) || (c =? 8287) || (c =? 12288).

Fixpoint lstrip (s : pystr) : pystr :=
  match s with
  | c :: s' => if is_space c then lstrip s' else s
  | [] => []
  end.

Definition strip (s : pystr) : pystr := rev (lstrip (rev (lstrip s))).

(* ================================================================= *)
(** ** Python numbers *)

Definition float := spec_float.
Definition prec : Z := 53.
Definition emax : Z := 1024.

Definition fadd : float -> float -> float := SFadd prec emax.
Definition fmul : float -> float -> float := SFmul prec emax.

(** [float(n)], the conversion Python applies to the [int] operand of a mixed
    product (round to nearest even; exact below [2^53]). *)
Definition float_of_int (n : Z) : float := binary_normalize prec emax n 0 false.

(** The literals [0.5] and [0.0]. *)
Definition float_half : float := S754_finite false 4503599627370496 (-53).
Definition float_zero : float := S754_zero false.

(** The real number a finite float stands for. *)
Definition float_value (f : float) : Q :=
  match f with
  | S754_finite s m e => inject_Z (cond_Zopp s (Zpos m)) * Qpower 2 e
  | _ => 0
  end.

Definition is_finite (f : float) : bool :=
  match f with
  | S754_zero _ | S754_finite _ _ _ => true
  | _ => false
  end.

Definition float_eqb (a b : float) : bool :=
  match a, b with
  | S754_zero s, S754_zero t => Bool.eqb s t
  | S754_infinity s, S754_infinity t => Bool.eqb s t
  | S754_nan, S754_nan => true
  | S754_finite s m e, S754_finite t n k =>
      Bool.eqb s t && Pos.eqb m n && (e =? k)
  | _, _ => false
  end.

(** Decimal rendering of an [int]: [str(n)]. *)
Fixpoint digits_of_uint (d : Decimal.uint) : pystr :=
  match d with
  | Decimal.Nil => []
  | Decimal.D0 r => 48 :: digits_of_uint r
  | Decimal.D1 r => 49 :: digits_of_uint r
  | Decimal.D2 r => 50 :: digits_of_uint r
  | Decimal.D3 r => 51 :: digits_of_uint r
  | Decimal.D4 r => 52 :: digits_of_uint r
  | Decimal.D5 r => 53 :: digits_of_uint r
  | Decimal.D6 r => 54 :: digits_of_uint r
  | Decimal.D7 r => 55 :: digits_of_uint r
  | Decimal.D8 r => 56 :: digits_of_uint r
  | Decimal.D9 r => 57 :: digits_of_uint r
  end.

Definition str_of_int (n : Z) : pystr :=
  match n with
  | Z0 => [48]
  | Zpos p => digits_of_uint (Pos.to_uint p)
  | Zneg p => 45 :: digits_of_uint (Pos.to_uint p)
  end.

(** The format spec [:02d]: at least two characters, zero-padded; the sign
    of a negative number counts as one of them. *)
Definition fmt_02d (n : Z) : pystr :=
  let s := str_of_int n in
  if (length s <? 2)%nat then 48 :: s else s.

(* ================================================================= *)
(** ** Exceptions *)

Inductive exn : Type :=
| AttributeError | KeyError | OverflowError | TypeError
| UnboundLocalError | UnicodeEncodeError | ValueError | OSError.

Inductive result (A : Type) : Type :=
| Ok (a : A)
| Raise (e : exn).
Arguments Ok {A} a.
Arguments Raise {A} e.

Definition rbind {A B} (r : result A) (k : A -> result B) : result B :=
  match r with
  | Ok a => k a
  | Raise e => Raise e
  end.

Declare Scope result_scope.
Delimit Scope result_scope with result.
Notation "x <- c ;; k" := (rbind c (fun x => k))
  (at level 61, c at next level, right associativity) : result_scope.

Fixpoint mapM {A B} (f : A -> result B) (l : list A) : result (list B) :=
  match l with
  | [] => Ok []
  | a :: l' =>
      (b <- f a ;;
       bs <- mapM f l' ;;
       Ok (b :: bs))%result
  end.

(* ================================================================= *)
(** ** JSON documents, as [response.json()] returns them *)

Inductive json : Type :=
| JNull
| JBool (b : bool)
| JInt (n : Z)
| JFloat (f : float)
| JStr (s : pystr)
| JList (l : list json)
| JDict (d : list (pystr * json)).

Definition pydict := list (pystr * json).

(** Truth value of an object: [not v] is [negb (truthy v)]. *)
Definition truthy (v : json) : bool :=
  match v with
  | JNull => false
  | JBool b => b
  | JInt n => negb (n =? 0)
  | JFloat (S754_zero _) => false
  | JFloat _ => true
  | JStr [] => false
  | JStr _ => true
  | JList [] => false
  | JList _ => true
  | JDict [] => false
  | JDict _ => true
  end.

Fixpoint dict_lookup (d : pydict) (k : pystr) : option json :=
  match d with
  | [] => None
  | (k', v) :: d' => if pystr_eqb k' k then Some v else dict_lookup d' k
  end.

(** [d.get(k, default)] on a dict. *)
Definition dict_get (d : pydict) (k : pystr) (default : json) : json :=
  match dict_lookup d k with
  | Some v => v
  | None => default
  end.

(** [v.get(k, default)] on any object: only a dict has the method. *)
Definition json_get (v : json) (k : pystr) (default : json) : result json :=
  match v with
  | JDict d => Ok (dict_get d k default)
  | _ => Raise AttributeError
  end.

(** [v.keys()] *)
Definition json_keys (v : json) : result (list pystr) :=
  match v with
  | JDict d => Ok (map fst d)
  | _ => Raise AttributeError
  end.

(** [v[k]] for a string key [k]. *)
Definition json_item (v : json) (k : pystr) : result json :=
  match v with
  | JDict d =>
      match dict_lookup d k with
      | Some x => Ok x
      | None => Raise KeyError
      end
  | _ => Raise TypeError
  end.

(** [v == s] for a string [s]. *)
Definition eq_str (v : json) (s : pystr) : bool :=
  match v with
  | JStr t => pystr_eqb t s
  | _ => false
  end.

(* ================================================================= *)
(** ** Configuration *)

Definition CACHE_FILE : pystr := Eval vm_compute in u "last_hash.txt".

Definition DAYS_UA : list (Z * pystr) := Eval vm_compute in
  [ (0, u "Понеділок");
    (1, u "Вівторок");
    (2, u "Середа");
    (3, u "Четвер");
    (4, u "П'ятниця");
    (5, u "Субота");
    (6, u "Неділя") ].

Fixpoint days_lookup (t : list (Z * pystr)) (k : Z) : result pystr :=
  match t with
  | [] => Raise KeyError
  | (k', v) :: t' => if k' =? k then Ok v else days_lookup t' k
  end.

(* ================================================================= *)
(** ** format_hours *)

Inductive pynum : Type :=
| PyInt (n : Z)
| PyFloat (f : float).

(** [int(f)]: truncation toward zero. *)
Definition int_of_float (f : float) : result Z :=
  match f with
  | S754_zero _ => Ok 0
  | S754_finite s m e => Ok (cond_Zopp s (Z.shiftl (Zpos m) e))
  | S754_infinity _ => Raise OverflowError
  | S754_nan => Raise ValueError
  end.

(** [f == n] between a float and an int: Python compares the exact values. *)
Definition float_eq_int (f : float) (n : Z) : bool :=
  match f with
  | S754_zero _ => n =? 0
  | S754_finite s m e =>
      if 0 <=? e then cond_Zopp s (Zpos m * 2 ^ e) =? n
      else cond_Zopp s (Zpos m) =? n * 2 ^ (- e)
  | _ => false
  end.

Definition mem (x : Z) (l : list Z) : bool := existsb (Z.eqb x) l.

Definition word_one : pystr := Eval vm_compute in u " година".
Definition word_few : pystr := Eval vm_compute in u " години".
Definition word_many : pystr := Eval vm_compute in u " годин".

Section Format.

(** [repr] of a float, as an f-string renders it. It is part of the
    interpreter, not of this program. *)
Variable float_repr : float -> pystr.

Definition format_hours (hours : pynum) : result pystr :=
  (hours <- match hours with
            | PyInt n => Ok (PyInt n)
            | PyFloat f =>
                n <- int_of_float f ;;
                Ok (if float_eq_int f n then PyInt n else PyFloat f)
            end ;;
   match hours with
   | PyFloat f => Ok (float_repr f ++ word_few)
   | PyInt n =>
       if (n mod 10 =? 1) && negb (n mod 100 =? 11)
       then Ok (str_of_int n ++ word_one)
       else if mem (n mod 10) [2; 3; 4] && negb (mem (n mod 100) [12; 13; 14])
       then Ok (str_of_int n ++ word_few)
       else Ok (str_of_int n ++ word_many)
   end)%result.

End Format.

(* ================================================================= *)
(** ** format_slot_time *)

Definition format_slot_time (slot : Z) : pystr :=
  let total_minutes := slot * 30 in
  let hours := total_minutes / 60 in
  let minutes := total_minutes mod 60 in
  if hours =? 24 then [50; 52; 58; 48; 48]
  else fmt_02d hours ++ [58] ++ fmt_02d minutes.

(* ================================================================= *)
(** ** build_schedule *)

Record period : Type := mk_period {
  start : pystr;
  end_ : pystr;
  is_on : bool;
  hours : float
}.

Definition s_yes : pystr := Eval vm_compute in u "yes".
Definition s_no : pystr := Eval vm_compute in u "no".
Definition s_first : pystr := Eval vm_compute in u "first".
Definition s_second : pystr := Eval vm_compute in u "second".
Definition s_maybe : pystr := Eval vm_compute in u "maybe".
Definition s_mfirst : pystr := Eval vm_compute in u "mfirst".
Definition s_msecond : pystr := Eval vm_compute in u "msecond".

(** The [if]/[elif] chain on [status]: the powered state of the first and of
    the second half of the hour. *)
Definition interpret (status : json) : bool * bool :=
  if eq_str status s_yes then (true, true)
  else if eq_str status s_no then (false, false)
  else if eq_str status s_first then (false, true)
  else if eq_str status s_second then (true, false)
  else if existsb (eq_str status) [s_maybe; s_mfirst; s_msecond]
  then (true, true)
  else (true, true).

(** [range(lo, hi)] *)
Definition range (lo hi : Z) : list Z :=
  map (fun k => lo + Z.of_nat k) (seq 0 (Z.to_nat (hi - lo))).

(** The first loop: two slots per hour, hours 1 to 24. *)
Definition encode_slots (day_data : pydict) : list bool :=
  fold_left
    (fun slots hour =>
       let hour_key := str_of_int hour in
       let status := dict_get day_data hour_key (JStr s_yes) in
       let '(first_half, second_half) := interpret status in
       (slots ++ [first_half]) ++ [second_half])
    (range 1 25) [].

Record merge_state : Type := mk_merge_state {
  periods : list period;
  current_status : bool;
  start_slot : Z
}.

(** One round of the second loop, at index [i]. *)
Definition merge_step (slots : list bool) (st : merge_state) (i : Z)
  : merge_state :=
  let slot_i := nth (Z.to_nat i) slots true in
  if negb (Bool.eqb slot_i (current_status st)) then
    let hours := fmul (float_of_int (i - start_slot st)) float_half in
    {| periods := periods st ++
         [ {| start := format_slot_time (start_slot st);
              end_ := format_slot_time i;
              is_on := current_status st;
              hours := hours |} ];
       current_status := slot_i;
       start_slot := i |}
  else st.

(** The merge phase: everything after the slots are built. *)
Definition merge_slots (slots : list bool) : list period :=
  match slots with
  | [] => []
  | slot_0 :: _ =>
      let len := Z.of_nat (length slots) in
      let st := fold_left (merge_step slots) (range 1 len)
                  {| periods := []; current_status := slot_0; start_slot := 0 |} in
      let hours := fmul (float_of_int (len - start_slot st)) float_half in
      periods st ++
        [ {| start := format_slot_time (start_slot st);
             end_ := format_slot_time len;
             is_on := current_status st;
             hours := hours |} ]
  end.

Definition build_schedule (day_data : pydict) : list period :=
  merge_slots (encode_slots day_data).

(* ================================================================= *)
(** ** format_schedule_message and format_full_message *)

(** What the program observes of a [datetime]: [weekday()] and the fields
    [strftime("%d.%m")] prints. *)
Record datetime : Type := mk_datetime {
  weekday : Z;
  day : Z;
  month : Z
}.

Definition strftime_d_m (date : datetime) : pystr :=
  fmt_02d (day date) ++ [46] ++ fmt_02d (month date).

Definition s_today : pystr := Eval vm_compute in u "сьогодні".
Definition s_tomorrow : pystr := Eval vm_compute in u "завтра".
Definition s_GPV : pystr := Eval vm_compute in u "GPV".
Definition s_header_1 : pystr := Eval vm_compute in u "🗓 Графік відключень на ".
Definition s_header_2 : pystr := Eval vm_compute in u ", ".
Definition s_header_3 : pystr := Eval vm_compute in u " (".
Definition s_header_4 : pystr := Eval vm_compute in u "), група ".
Definition s_header_5 : pystr := Eval vm_compute in u ":".
Definition s_battery_full : pystr := Eval vm_compute in u "🔋".
Definition s_battery_low : pystr := Eval vm_compute in u "🪫".
Definition s_dash : pystr := Eval vm_compute in u " - ".
Definition s_lparen : pystr := Eval vm_compute in u " (".
Definition s_rparen : pystr := Eval vm_compute in u ")".
Definition s_light_on : pystr := Eval vm_compute in u "Світло є ".
Definition s_light_off : pystr := Eval vm_compute in u "Світла нема ".
Definition s_newline : pystr := [10].
Definition day_separator : pystr := [10; 45; 45; 45; 10].
Definition group_separator : pystr := [10; 61; 61; 61; 10].
Definition s_fact : pystr := Eval vm_compute in u "fact".
Definition s_data : pystr := Eval vm_compute in u "data".
Definition s_meta : pystr := Eval vm_compute in u "meta".
Definition s_contentHash : pystr := Eval vm_compute in u "contentHash".
Definition groups : list pystr :=
  Eval vm_compute in [u "GPV12.1"; u "GPV18.1"].

(** [data.get("fact", {}).get("data", {})] *)
Definition fact_data_of (data : json) : result json :=
  (fact <- json_get data s_fact (JDict []) ;;
   json_get fact s_data (JDict []))%result.

(** [data.get("meta", {}).get("contentHash", "")] *)
Definition content_hash_of (data : json) : result json :=
  (meta <- json_get data s_meta (JDict []) ;;
   json_get meta s_contentHash (JStr []))%result.

(** [fact_data[day_ts].get(group)] *)
Definition group_day_data (fact_data : json) (day_ts group : pystr)
  : result json :=
  (day <- json_item fact_data day_ts ;;
   json_get day group JNull)%result.

Section Render.

Variable float_repr : float -> pystr.

(** [int(x)] on a string, of the interpreter. *)
Variable int_of_str : pystr -> result Z.

(** [datetime.fromtimestamp], which reads the time zone of the process. *)
Variable fromtimestamp : Z -> result datetime.

Record totals : Type := mk_totals {
  lines : list pystr;
  total_on : float;
  total_off : float
}.

(** One round of the loop over the periods. *)
Definition render_period (acc : totals) (p : period) : result totals :=
  (let emoji := if is_on p then s_battery_full else s_battery_low in
   hours_text <- format_hours float_repr (PyFloat (hours p)) ;;
   let line := emoji ++ start p ++ s_dash ++ end_ p ++ s_lparen
                 ++ hours_text ++ s_rparen in
   if is_on p
   then Ok {| lines := lines acc ++ [line];
              total_on := fadd (total_on acc) (hours p);
              total_off := total_off acc |}
   else Ok {| lines := lines acc ++ [line];
              total_on := total_on acc;
              total_off := fadd (total_off acc) (hours p) |})%result.

Fixpoint render_periods (acc : totals) (schedule : list period)
  : result totals :=
  match schedule with
  | [] => Ok acc
  | p :: rest =>
      (acc' <- render_period acc p ;;
       render_periods acc' rest)%result
  end.

Definition format_schedule_message (schedule : list period) (date : datetime)
    (group : pystr) (is_today : bool) : result pystr :=
  (day_name <- days_lookup DAYS_UA (weekday date) ;;
   let date_str := strftime_d_m date in
   let day_type := if is_today then s_today else s_tomorrow in
   let group_num := replace s_GPV [] group in
   let header := s_header_1 ++ day_type ++ s_header_2 ++ date_str
                   ++ s_header_3 ++ day_name ++ s_header_4 ++ group_num
                   ++ s_header_5 in
   acc <- render_periods
            {| lines := [header]; total_on := float_zero;
               total_off := float_zero |} schedule ;;
   on_text <- format_hours float_repr (PyFloat (total_on acc)) ;;
   off_text <- format_hours float_repr (PyFloat (total_off acc)) ;;
   Ok (join s_newline
         (((lines acc ++ [[]]) ++ [s_light_on ++ on_text])
            ++ [s_light_off ++ off_text])))%result.

(** [sorted(keys, key=lambda x: int(x))]: the keys are computed first, then a
    stable sort on them. *)
Fixpoint insert_by_key (x : Z * pystr) (l : list (Z * pystr))
  : list (Z * pystr) :=
  match l with
  | [] => [x]
  | y :: l' => if fst x <=? fst y then x :: y :: l' else y :: insert_by_key x l'
  end.

Definition sorted_by_int (keys : list pystr) : result (list pystr) :=
  (ks <- mapM (fun x => k <- int_of_str x ;; Ok (k, x)) keys ;;
   Ok (map snd (fold_right insert_by_key [] ks)))%result.

(** The inner loop of [format_full_message], over
    [enumerate(sorted_days[:2])] from index [idx] on. *)
Fixpoint group_days (fact_data : json) (group : pystr) (idx : Z)
    (days : list pystr) (group_messages : list pystr)
  : result (list pystr) :=
  match days with
  | [] => Ok group_messages
  | day_ts :: rest =>
      (day_data <- group_day_data fact_data day_ts group ;;
       if negb (truthy day_data)
       then group_days fact_data group (idx + 1) rest group_messages
       else
         ts <- int_of_str day_ts ;;
         date <- fromtimestamp ts ;;
         let is_today := idx =? 0 in
         schedule <- match day_data with
                     | JDict d => Ok (build_schedule d)
                     | _ => Raise AttributeError
                     end ;;
         message <- format_schedule_message schedule date group is_today ;;
         group_days fact_data group (idx + 1) rest
           (group_messages ++ [message]))%result
  end.

(** The outer loop, over [groups]. *)
Fixpoint all_groups (fact_data : json) (sorted_days : list pystr)
    (gs : list pystr) (all_messages : list pystr) : result (list pystr) :=
  match gs with
  | [] => Ok all_messages
  | group :: rest =>
      (group_messages <-
         group_days fact_data group 0 (firstn 2 sorted_days) [] ;;
       match group_messages with
       | [] => all_groups fact_data sorted_days rest all_messages
       | _ :: _ =>
           all_groups fact_data sorted_days rest
             (all_messages ++ [join day_separator group_messages])
       end)%result
  end.

(** Returns [None] or a string. *)
Definition format_full_message (data : json) : result (option pystr) :=
  (fact_data <- fact_data_of data ;;
   if negb (truthy fact_data) then Ok None
   else
     keys <- json_keys fact_data ;;
     sorted_days <- sorted_by_int keys ;;
     all_messages <- all_groups fact_data sorted_days groups [] ;;
     Ok (Some (join group_separator all_messages)))%result.

End Render.

(* ================================================================= *)
(** ** The world of a run: marker file and Telegram endpoint *)

(** [marker] is the text of [last_hash.txt] ([None] while the file does not
    exist); [posts] lists the texts handed to [requests.post], oldest first:
    one entry per delivery attempt. *)
Record world : Type := mk_world {
  marker : option pystr;
  posts : list pystr
}.

(** What one call of [requests.post] followed by [raise_for_status] does:
    the call itself raises (no response object), or a response comes back
    whose status is fine ([Responded true]) or an error ([Responded false]). *)
Inductive post_outcome : Type :=
| PostRaises
| Responded (ok : bool).

(** The surroundings of one run: the two environment variables, what
    [fetch_data] obtains ([None] when the request, the status check or the
    JSON parse raised), the behaviour of the endpoint, by the number of
    earlier attempts and the text sent, and the platform's treatment of text
    files: the characters the default encoding can encode and the line
    separator written for ["\n"] ([os.linesep]). *)
Record env : Type := mk_env {
  TELEGRAM_BOT_TOKEN : option pystr;
  TELEGRAM_CHANNEL_ID : option pystr;
  feed : option json;
  transport : nat -> pystr -> post_outcome;
  file_encodable : Z -> bool;
  linesep : pystr
}.

Definition io (A : Type) : Type := world -> result A * world.

Definition io_ret {A} (a : A) : io A := fun w => (Ok a, w).

Definition io_bind {A B} (c : io A) (k : A -> io B) : io B :=
  fun w =>
    match c w with
    | (Ok a, w') => k a w'
    | (Raise e, w') => (Raise e, w')
    end.

Definition io_lift {A} (r : result A) : io A := fun w => (r, w).

Declare Scope io_scope.
Delimit Scope io_scope with io.
Notation "x <- c ;; k" := (io_bind c (fun x => k))
  (at level 61, c at next level, right associativity) : io_scope.

(** [not s] for an optional string ([None] or empty). *)
Definition str_truthy (s : option pystr) : bool :=
  match s with
  | Some (_ :: _) => true
  | _ => false
  end.

(** The exceptions of [requests] and of the JSON parser are caught inside
    [fetch_data]; a JSON [null] and a failed fetch both come back as [None]. *)
Definition fetch_data (E : env) : json :=
  match feed E with
  | Some data => data
  | None => JNull
  end.

(** Reading in text mode: the line endings ["\r\n"] and ["\r"] come back as
    ["\n"]. *)
Fixpoint universal_newlines (s : pystr) : pystr :=
  match s with
  | [] => []
  | c :: r =>
      if c =? 13 then
        match r with
        | d :: r' =>
            if d =? 10 then 10 :: universal_newlines r'
            else 10 :: universal_newlines r
        | [] => [10]
        end
      else c :: universal_newlines r
  end.

(** Writing in text mode: every ["\n"] goes out as the line separator. *)
Definition write_newlines (sep : pystr) (s : pystr) : pystr :=
  flat_map (fun c => if c =? 10 then sep else [c]) s.

(** The hash a run reads: the text of the marker file, line endings
    translated, stripped; or [None] when there is no file
    ([FileNotFoundError] is caught). *)
Definition cached_hash_of (w : world) : option pystr :=
  match marker w with
  | Some text => Some (strip (universal_newlines text))
  | None => None
  end.

Definition get_cached_hash : io (option pystr) :=
  fun w => (Ok (cached_hash_of w), w).

(** [open(..., "w")] truncates the file; [write] then checks that its
    argument is a string and encodes it, and either check can raise with the
    file left empty. *)
Definition save_hash (E : env) (hash_value : json) : io unit :=
  fun w =>
    match hash_value with
    | JStr s =>
        if forallb (file_encodable E) s
        then (Ok tt, {| marker := Some (write_newlines (linesep E) s);
                        posts := posts w |})
        else (Raise UnicodeEncodeError,
              {| marker := Some []; posts := posts w |})
    | _ => (Raise TypeError, {| marker := Some []; posts := posts w |})
    end.

(** The choice of [parts] in [send_telegram_message]. *)
Definition max_length : Z := 4000.

Definition message_parts (message : pystr) : list pystr :=
  if Z.of_nat (length message) <=? max_length then [message]
  else split group_separator message.

(** The loop over [parts]. [response_bound] tells whether the local variable
    [response] has been assigned: the handler reads it. *)
Fixpoint send_parts (E : env) (parts : list pystr) (response_bound : bool)
  : io bool :=
  match parts with
  | [] => io_ret true
  | part :: rest =>
      fun w =>
        let w' := {| marker := marker w; posts := posts w ++ [part] |} in
        match transport E (length (posts w)) part with
        | Responded true => send_parts E rest true w'
        | Responded false => (Ok false, w')
        | PostRaises =>
            if response_bound then (Ok false, w')
            else (Raise UnboundLocalError, w')
        end
  end.

Definition send_telegram_message (E : env) (message : pystr) : io bool :=
  if negb (str_truthy (TELEGRAM_BOT_TOKEN E))
     || negb (str_truthy (TELEGRAM_CHANNEL_ID E))
  then io_ret false
  else send_parts E (message_parts message) false.

(** [content_hash == cached_hash] *)
Definition hash_eq (content_hash : json) (cached_hash : option pystr) : bool :=
  match content_hash, cached_hash with
  | JStr s, Some t => pystr_eqb s t
  | JNull, None => true
  | _, _ => false
  end.

(** [content_hash[:16]] inside the announcement: strings and lists can be
    sliced, the other values raise (for a dict the interpreter's version decides
    between [TypeError] and [KeyError]). *)
Definition slice_16 (content_hash : json) : result json :=
  match content_hash with
  | JStr s => Ok (JStr (firstn 16 s))
  | JList l => Ok (JList (firstn 16 l))
  | _ => Raise TypeError
  end.

Section Main.

Variable float_repr : float -> pystr.
Variable int_of_str : pystr -> result Z.
Variable fromtimestamp : Z -> result datetime.

Definition main (E : env) : io unit :=
  (let data := fetch_data E in
   if negb (truthy data) then io_ret tt
   else
     content_hash <- io_lift (content_hash_of data) ;;
     cached_hash <- get_cached_hash ;;
     if hash_eq content_hash cached_hash then io_ret tt
     else
       _ <- io_lift (slice_16 content_hash) ;;
       message <- io_lift
         (format_full_message float_repr int_of_str fromtimestamp data) ;;
       if negb (str_truthy message) then io_ret tt
       else
         match message with
         | Some text =>
             sent <- send_telegram_message E text ;;
             if sent then save_hash E content_hash else io_ret tt
         | None => io_ret tt
         end)%io.

End Main.

(* ================================================================= *)
(** ** Interpreter functions, for running the program on examples *)

(** [repr] of a float that is a non-negative multiple of 0.5, the only
    fractional values the schedule produces. *)
Definition repr_halves (f : float) : pystr :=
  match int_of_float f with
  | Ok n => str_of_int n ++ (if float_eq_int f n then [46; 48] else [46; 53])
  | Raise _ => [110; 97; 110]
  end.

(** [int(x)] on a plain run of ASCII digits. *)
Fixpoint digits_value (acc : Z) (s : pystr) : result Z :=
  match s with
  | [] => Ok acc
  | c :: s' =>
      if (48 <=? c) && (c <=? 57) then digits_value (10 * acc + (c - 48)) s'
      else Raise ValueError
  end.

Definition int_of_digits (s : pystr) : result Z :=
  match s with
  | [] => Raise ValueError
  | _ :: _ => digits_value 0 s
  end.

(** [datetime.fromtimestamp] in the time zone UTC (proleptic Gregorian
    calendar; 1 January 1970 was a Thursday). *)
Definition utc_fromtimestamp (ts : Z) : result datetime :=
  let days := ts / 86400 in
  let z := days + 719468 in
  let era := z / 146097 in
  let doe := z - era * 146097 in
  let yoe := (doe - doe / 1460 + doe / 36524 - doe / 146096) / 365 in
  let doy := doe - (365 * yoe + yoe / 4 - yoe / 100) in
  let mp := (5 * doy + 2) / 153 in
  Ok {| weekday := (days + 3) mod 7;
        day := doy - (153 * mp + 2) / 5 + 1;
        month := if mp <? 10 then mp + 3 else mp - 9 |}.

(* ================================================================= *)
(** ** Vocabulary of the properties *)

(** From the specification: a clock time [HH:MM], both fields zero-padded to
    two digits. *)
Definition two_digits (n : Z) : pystr := [48 + n / 10; 48 + n mod 10].
Definition hh_mm (h m : Z) : pystr := two_digits h ++ [58] ++ two_digits m.

(** The status read for [hour]: [day_data.get(str(hour), "yes")]. *)
Definition status_of (day_data : pydict) (hour : Z) : json :=
  dict_get day_data (str_of_int hour) (JStr s_yes).

(** From the specification: the three forms of the numeral agreement. *)
Inductive plural_form : Type := Singular | Few | Many.

Definition plural_form_of_int (n : Z) : plural_form :=
  if (n mod 10 =? 1) && negb (n mod 100 =? 11) then Singular
  else if ((n mod 10 =? 2) || (n mod 10 =? 3) || (n mod 10 =? 4))
          && negb ((n mod 100 =? 12) || (n mod 100 =? 13) || (n mod 100 =? 14))
  then Few
  else Many.

Definition word_of (form : plural_form) : pystr :=
  match form with
  | Singular => word_one
  | Few => word_few
  | Many => word_many
  end.

Definition float_2_5 : float := fmul (float_of_int 5) float_half.

(** From the specification: an interval of slots [lo, hi) with its state. *)
Record interval : Type := mk_interval {
  lo : Z;
  hi : Z;
  powered : bool
}.

(** The period the program stores for an interval. *)
Definition period_of (iv : interval) : period :=
  {| start := format_slot_time (lo iv);
     end_ := format_slot_time (hi iv);
     is_on := powered iv;
     hours := fmul (float_of_int (hi iv - lo iv)) float_half |}.

Definition slot_at (slots : list bool) (j : Z) : bool :=
  nth (Z.to_nat j) slots true.

(** [tiles slots a c ivs]: the intervals of [ivs] are non-empty, each starts
    where the one before it ends, together they run from slot [a] to slot
    [c], and every slot of an interval has the interval's state. *)
Inductive tiles (slots : list bool) : Z -> Z -> list interval -> Prop :=
| tiles_nil (a : Z) : tiles slots a a []
| tiles_cons (a b c : Z) (v : bool) (ivs : list interval) :
    a < b ->
    (forall j, a <= j < b -> slot_at slots j = v) ->
    tiles slots b c ivs ->
    tiles slots a c (mk_interval a b v :: ivs).

(** No two neighbours are equal. *)
Fixpoint alternating (l : list bool) : Prop :=
  match l with
  | x :: r =>
      match r with
      | y :: _ => x <> y /\ alternating r
      | [] => True
      end
  | [] => True
  end.

(** The slots an interval list stands for: each interval repeated over its
    length. *)
Definition expand (ivs : list interval) : list bool :=
  flat_map (fun iv => repeat (powered iv) (Z.to_nat (hi iv - lo iv))) ivs.


(** Sum of floats, added left to right from [0.0]. *)
Definition fsum (l : list float) : float := fold_left fadd l float_zero.

Definition float_24 : float := S754_finite false 6755399441055744 (-48).

(** [k * 0.5], as the program computes a duration from a slot count. *)
Definition half_hours (k : Z) : float := fmul (float_of_int k) float_half.

Definition merge_init (slots : list bool) : merge_state :=
  {| periods := []; current_status := slot_at slots 0; start_slot := 0 |}.

(** What holds before the loop reads index [i]. *)
Record merge_inv (slots : list bool) (st : merge_state) (i : Z)
    (ivs : list interval) : Prop := {
  inv_periods : periods st = map period_of ivs;
  inv_tiles : tiles slots 0 (start_slot st) ivs;
  inv_start : 0 <= start_slot st < i;
  inv_run : forall j, start_slot st <= j < i ->
            slot_at slots j = current_status st;
  inv_alt : alternating (map powered ivs ++ [current_status st])
}.

Definition day_hour_1_off : pydict :=
  (str_of_int 1, JStr s_no)
    :: map (fun hour => (str_of_int hour, JStr s_yes)) (range 2 25).

(** The interval list and the summary the scenario was expected to give. *)
Definition expected_hour_1_off : list period :=
  [ {| start := u "00:00"; end_ := u "02:00"; is_on := false;
       hours := float_of_int 2 |};
    {| start := u "02:00"; end_ := u "24:00"; is_on := true;
       hours := float_of_int 22 |} ].

(** [sep] occurs in [s] ([sep in s]). *)
Definition occurs (sep s : pystr) : Prop := exists a b, s = a ++ sep ++ b.

(** A feed document with one day for both groups, and the surroundings of a
    run on it. *)
Definition example_feed : json :=
  JDict
    [ (s_meta, JDict [ (s_contentHash, JStr (u "abc")) ]);
      (s_fact,
       JDict
         [ (s_data,
            JDict
              [ (u "1700000000",
                 JDict
                   [ (u "GPV12.1", JDict [ (u "1", JStr s_no) ]);
                     (u "GPV18.1", JDict [ (u "5", JStr s_first) ]) ]) ]) ]) ].

(** The document of [example_feed] under another contentHash. *)
Definition example_feed_with_hash (content_hash : json) : json :=
  JDict
    [ (s_meta, JDict [ (s_contentHash, content_hash) ]);
      (s_fact,
       JDict
         [ (s_data,
            JDict
              [ (u "1700000000",
                 JDict
                   [ (u "GPV12.1", JDict [ (u "1", JStr s_no) ]);
                     (u "GPV18.1", JDict [ (u "5", JStr s_first) ]) ]) ]) ]) ].

(** The same revision with no day published yet. *)
Definition example_feed_no_days : json :=
  JDict
    [ (s_meta, JDict [ (s_contentHash, JStr (u "abc")) ]);
      (s_fact, JDict [ (s_data, JDict []) ]) ].

(** A day is published, for another group only. *)
Definition example_feed_other_group : json :=
  JDict
    [ (s_meta, JDict [ (s_contentHash, JStr (u "abc")) ]);
      (s_fact,
       JDict
         [ (s_data,
            JDict
              [ (u "1700000000",
                 JDict [ (u "GPV1.1", JDict [ (u "1", JStr s_no) ]) ]) ]) ]) ].

(** UTF-8 encodes every code point but the surrogates. *)
Definition utf8_encodable (c : Z) : bool :=
  negb ((55296 <=? c) && (c <=? 57343)).

Definition example_env (data : json) (endpoint : nat -> pystr -> post_outcome)
  : env :=
  {| TELEGRAM_BOT_TOKEN := Some (u "token");
     TELEGRAM_CHANNEL_ID := Some (u "@channel");
     feed := Some data;
     transport := endpoint;
     file_encodable := utf8_encodable;
     linesep := [10] |}.

Definition endpoint_ok : nat -> pystr -> post_outcome :=
  fun _ _ => Responded true.

Definition endpoint_down : nat -> pystr -> post_outcome :=
  fun _ _ => PostRaises.

Definition first_run : world := {| marker := None; posts := [] |}.

Definition example_main : env -> io unit :=
  main repr_halves int_of_digits utc_fromtimestamp.

(** Two days for both groups, every hour without power in its first half:
    48 periods a day. *)
Definition busy_day : json :=
  JDict (map (fun hour => (str_of_int hour, JStr s_first)) (range 1 25)).

Definition busy_fact_data_days : pydict :=
  [ (u "1700000000",
     JDict [ (u "GPV12.1", busy_day); (u "GPV18.1", busy_day) ]);
    (u "1700086400",
     JDict [ (u "GPV12.1", busy_day); (u "GPV18.1", busy_day) ]) ].

Definition busy_fact_data : json := JDict busy_fact_data_days.

(** The same two days, listed after a third, later day with other data. *)
Definition three_days_fact_data : pydict :=
  (u "1700172800",
   JDict [ (u "GPV12.1", JDict [ (u "1", JStr s_no) ]);
           (u "GPV18.1", JDict [ (u "2", JStr s_no) ]) ])
    :: busy_fact_data_days.

Definition example_feed_three_days : json :=
  JDict
    [ (s_meta, JDict [ (s_contentHash, JStr (u "ghi")) ]);
      (s_fact, JDict [ (s_data, JDict three_days_fact_data) ]) ].

Definition example_feed_busy : json :=
  JDict
    [ (s_meta, JDict [ (s_contentHash, JStr (u "def")) ]);
      (s_fact, JDict [ (s_data, busy_fact_data) ]) ].

(** The two group sections of the report of [example_feed_busy]. *)
Definition busy_sections : list pystr := Eval vm_compute in
  match all_groups repr_halves int_of_digits utc_fromtimestamp busy_fact_data
          [u "1700000000"; u "1700086400"] groups [] with
  | Ok sections => sections
  | Raise _ => []
  end.

(** An endpoint that accepts the first request and is unreachable after. *)
Definition endpoint_first_only : nat -> pystr -> post_outcome :=
  fun attempts _ =>
    match attempts with
    | O => Responded true
    | S _ => PostRaises
    end.

(** The surroundings of a run with the bot token unset. *)
Definition example_env_no_token (data : json) : env :=
  {| TELEGRAM_BOT_TOKEN := None;
     TELEGRAM_CHANNEL_ID := Some (u "@channel");
     feed := Some data;
     transport := endpoint_ok;
     file_encodable := utf8_encodable;
     linesep := [10] |}.

(** A document without the key "fact". *)
Definition example_feed_no_fact : pydict :=
  [ (s_meta, JDict [ (s_contentHash, JStr (u "abc")) ]) ].

(** A day filed under a key that is not a number. *)
Definition example_bad_fact_data : pydict :=
  [ (u "1700000000", JDict [ (u "GPV12.1", JDict [ (u "1", JStr s_no) ]) ]);
    (u "today", JDict [ (u "GPV12.1", JDict [ (u "1", JStr s_no) ]) ]) ].

Definition example_feed_bad_key : json :=
  JDict
    [ (s_meta, JDict [ (s_contentHash, JStr (u "abc")) ]);
      (s_fact, JDict [ (s_data, JDict example_bad_fact_data) ]) ].

(** The report of [example_feed_busy]: its two sections joined. *)
Definition busy_report : pystr := Eval vm_compute in
  join group_separator busy_sections.

(** The report of [example_feed], with UTC as the time zone. *)
Definition example_report : pystr := Eval vm_compute in
  match format_full_message repr_halves int_of_digits utc_fromtimestamp
          example_feed with
  | Ok (Some text) => text
  | _ => []
  end.

(* ================================================================= *)
(** * Properties *)

(** ** Auxiliary facts *)

Lemma pystr_eqb_eq (a b : pystr) : pystr_eqb a b = true <-> a = b.
Proof.
  revert b; induction a as [|x a IH]; intros [|y b]; simpl;
    try (split; [discriminate | congruence]); try tauto.
  rewrite andb_true_iff, Z.eqb_eq, IH.
  split; [intros [-> ->]; reflexivity | intros [= -> ->]; auto].
Qed.

Lemma pystr_eqb_refl (a : pystr) : pystr_eqb a a = true.
Proof. apply pystr_eqb_eq; reflexivity. Qed.

Lemma float_eqb_eq (a b : float) : float_eqb a b = true -> a = b.
Proof.
  destruct a, b; simpl; try discriminate; try reflexivity.
  - intros H; apply Bool.eqb_prop in H; congruence.
  - intros H; apply Bool.eqb_prop in H; congruence.
  - rewrite !andb_true_iff, Pos.eqb_eq, Z.eqb_eq.
    intros [[H ->] ->]; apply Bool.eqb_prop in H; congruence.
Qed.

Lemma range_length (lo hi : Z) : length (range lo hi) = Z.to_nat (hi - lo).
Proof. unfold range; rewrite length_map, length_seq; reflexivity. Qed.

Lemma range_nth (lo hi : Z) (k : nat) (d : Z) :
  (k < Z.to_nat (hi - lo))%nat -> nth k (range lo hi) d = lo + Z.of_nat k.
Proof.
  intros Hk; unfold range.
  set (f := fun k : nat => lo + Z.of_nat k).
  rewrite (nth_indep _ d (f 0%nat))
    by (rewrite length_map, length_seq; exact Hk).
  rewrite map_nth, seq_nth by exact Hk; reflexivity.
Qed.

Lemma range_In (lo hi x : Z) : lo <= x < hi -> In x (range lo hi).
Proof.
  intros Hx; unfold range; apply in_map_iff.
  exists (Z.to_nat (x - lo)); split; [lia|].
  apply in_seq; lia.
Qed.

(** A property checked on every element of a range holds on the range. *)
Lemma range_forallb (lo hi : Z) (P : Z -> bool) :
  forallb P (range lo hi) = true -> forall x, lo <= x < hi -> P x = true.
Proof.
  intros H x Hx; rewrite forallb_forall in H; apply H, range_In, Hx.
Qed.

Lemma range_snoc (lo : Z) (n : nat) :
  range lo (lo + Z.of_nat (S n)) = range lo (lo + Z.of_nat n) ++ [lo + Z.of_nat n].
Proof.
  unfold range.
  replace (Z.to_nat (lo + Z.of_nat (S n) - lo)) with (S n) by lia.
  replace (Z.to_nat (lo + Z.of_nat n - lo)) with n by lia.
  rewrite seq_S, map_app; reflexivity.
Qed.

(** ** format_slot_time *)

Lemma format_slot_time_check :
  forallb (fun s => pystr_eqb (format_slot_time s)
                      (hh_mm (s * 30 / 60) ((s * 30) mod 60)))
          (range 0 49) = true.
Proof. vm_compute; reflexivity. Qed.

(** C7. For every slot index [s] in [0, 48], [format_slot_time s] is the time
    [s * 30] minutes after midnight as zero-padded [HH:MM]; the end-of-day
    slot 48 is "24:00" and does not wrap to "00:00", the rendering of slot 0. *)
Theorem format_slot_time_hh_mm (s : Z) :
  0 <= s <= 48 ->
  format_slot_time s = hh_mm (s * 30 / 60) ((s * 30) mod 60)
  /\ format_slot_time 48 = [50; 52; 58; 48; 48]
  /\ format_slot_time 48 <> format_slot_time 0.
Proof.
  intros Hs; split; [|split].
  - apply pystr_eqb_eq.
    apply (range_forallb 0 49 _ format_slot_time_check); lia.
  - reflexivity.
  - vm_compute; discriminate.
Qed.

Lemma format_slot_time_hh_mm_witness :
  0 <= 17 <= 48
  /\ format_slot_time 17 = hh_mm (17 * 30 / 60) ((17 * 30) mod 60)
  /\ format_slot_time 48 = [50; 52; 58; 48; 48]
  /\ format_slot_time 48 <> format_slot_time 0.
Proof. split; [lia | apply (format_slot_time_hh_mm 17); lia]. Defined.

(** ** The status codes and the slot encoder *)

Lemma encode_fold (F : Z -> bool * bool) (l : list Z) (acc : list bool) :
  fold_left (fun slots hour =>
               let '(first_half, second_half) := F hour in
               (slots ++ [first_half]) ++ [second_half]) l acc
  = acc ++ flat_map (fun hour => [fst (F hour); snd (F hour)]) l.
Proof.
  revert acc; induction l as [|h l IH]; intros acc; simpl.
  - rewrite app_nil_r; reflexivity.
  - rewrite IH; destruct (F h) as [a b]; simpl.
    rewrite <- !app_assoc; reflexivity.
Qed.

Lemma encode_slots_flat (day_data : pydict) :
  encode_slots day_data
  = flat_map (fun hour => [fst (interpret (status_of day_data hour));
                           snd (interpret (status_of day_data hour))])
             (range 1 25).
Proof.
  unfold encode_slots.
  rewrite (encode_fold (fun hour => interpret (status_of day_data hour))).
  reflexivity.
Qed.

Lemma flat_map_pairs_length {A} (f g : A -> bool) (l : list A) :
  length (flat_map (fun x => [f x; g x]) l) = (2 * length l)%nat.
Proof. induction l as [|x l IH]; simpl; [reflexivity | rewrite IH; lia]. Qed.

Lemma flat_map_pairs_nth {A} (f g : A -> bool) (l : list A) (k : nat) (d : A) :
  (k < length l)%nat ->
  nth (2 * k) (flat_map (fun x => [f x; g x]) l) true = f (nth k l d)
  /\ nth (2 * k + 1) (flat_map (fun x => [f x; g x]) l) true = g (nth k l d).
Proof.
  revert k; induction l as [|x l IH]; intros k Hk; simpl in Hk; [lia|].
  destruct k as [|k].
  - simpl; auto.
  - replace (2 * S k)%nat with (S (S (2 * k))) by lia.
    replace (S (S (2 * k)) + 1)%nat with (S (S (2 * k + 1))) by lia.
    simpl flat_map; simpl nth at 1 3.
    change (nth (S k) (x :: l) d) with (nth k l d).
    apply IH; lia.
Qed.

(** The encoder always produces 48 slots. *)
Lemma encode_slots_length (day_data : pydict) :
  length (encode_slots day_data) = 48%nat.
Proof.
  rewrite encode_slots_flat, flat_map_pairs_length, range_length; reflexivity.
Qed.

Lemma encode_slots_hour (day_data : pydict) (hour : Z) :
  1 <= hour <= 24 ->
  (nth (Z.to_nat (2 * (hour - 1))) (encode_slots day_data) true,
   nth (Z.to_nat (2 * (hour - 1) + 1)) (encode_slots day_data) true)
  = interpret (status_of day_data hour).
Proof.
  intros Hh; rewrite encode_slots_flat.
  destruct (flat_map_pairs_nth
              (fun hour => fst (interpret (status_of day_data hour)))
              (fun hour => snd (interpret (status_of day_data hour)))
              (range 1 25) (Z.to_nat (hour - 1)) 0) as [H1 H2].
  { rewrite range_length; lia. }
  replace (Z.to_nat (2 * (hour - 1))) with (2 * Z.to_nat (hour - 1))%nat by lia.
  replace (Z.to_nat (2 * (hour - 1) + 1))
    with (2 * Z.to_nat (hour - 1) + 1)%nat by lia.
  rewrite H1, H2, range_nth by lia.
  replace (1 + Z.of_nat (Z.to_nat (hour - 1))) with hour by lia.
  destruct (interpret (status_of day_data hour)); reflexivity.
Qed.

Lemma interpret_default (status : json) :
  status <> JStr s_no -> status <> JStr s_first -> status <> JStr s_second ->
  interpret status = (true, true).
Proof.
  intros Hno Hfirst Hsecond; unfold interpret.
  assert (Hne : forall s, status <> JStr s -> eq_str status s = false).
  { intros s Hs; destruct status; simpl; try reflexivity.
    destruct (pystr_eqb s0 s) eqn:E; [|reflexivity].
    apply pystr_eqb_eq in E; congruence. }
  rewrite (Hne _ Hno), (Hne _ Hfirst), (Hne _ Hsecond).
  destruct (eq_str status s_yes); [reflexivity|].
  destruct (existsb _ _); reflexivity.
Qed.

(** C4. For every hour 1..24 of a day, the two slots of the hour are the
    interpretation of the status read for it; "yes" is (on, on), "no" is
    (off, off), "first" is (off, on), "second" is (on, off), the three
    "maybe" codes are (on, on), and every other value, as well as a missing
    hour key, is (on, on). *)
Theorem status_code_interpretation (day_data : pydict) (hour : Z) :
  1 <= hour <= 24 ->
  (nth (Z.to_nat (2 * (hour - 1))) (encode_slots day_data) true,
   nth (Z.to_nat (2 * (hour - 1) + 1)) (encode_slots day_data) true)
  = interpret (dict_get day_data (str_of_int hour) (JStr s_yes))
  /\ (dict_lookup day_data (str_of_int hour) = None ->
      interpret (dict_get day_data (str_of_int hour) (JStr s_yes))
      = (true, true))
  /\ interpret (JStr s_yes) = (true, true)
  /\ interpret (JStr s_no) = (false, false)
  /\ interpret (JStr s_first) = (false, true)
  /\ interpret (JStr s_second) = (true, false)
  /\ interpret (JStr s_maybe) = (true, true)
  /\ interpret (JStr s_mfirst) = (true, true)
  /\ interpret (JStr s_msecond) = (true, true)
  /\ (forall status : json,
        status <> JStr s_no -> status <> JStr s_first ->
        status <> JStr s_second -> interpret status = (true, true)).
Proof.
  intros Hh; split; [exact (encode_slots_hour day_data hour Hh)|].
  split.
  { intros Hmiss; unfold dict_get; rewrite Hmiss; reflexivity. }
  repeat (split; [reflexivity|]).
  exact interpret_default.
Qed.

Lemma status_code_interpretation_witness :
  let day_data := [([49], JStr s_no); ([53], JStr s_first)] in
  1 <= 5 <= 24
  /\ ((nth (Z.to_nat (2 * (5 - 1))) (encode_slots day_data) true,
       nth (Z.to_nat (2 * (5 - 1) + 1)) (encode_slots day_data) true)
      = (false, true)).
Proof.
  intros day_data; split; [lia|].
  destruct (status_code_interpretation day_data 5) as [H _]; [lia|].
  rewrite H; reflexivity.
Defined.

(** ** format_hours *)

Lemma two_pow_Q (k : Z) : 0 <= k -> Qpower 2 k == inject_Z (2 ^ k).
Proof. intros Hk; rewrite Zpower_Qpower by exact Hk; reflexivity. Qed.

Lemma float_eq_int_value (s : bool) (m : positive) (e n : Z) :
  float_eq_int (S754_finite s m e) n = true
  <-> float_value (S754_finite s m e) == inject_Z n.
Proof.
  unfold float_eq_int, float_value.
  destruct (0 <=? e) eqn:He.
  - apply Z.leb_le in He.
    rewrite two_pow_Q by exact He.
    rewrite <- inject_Z_mult, Z.eqb_eq.
    replace (cond_Zopp s (Z.pos m) * 2 ^ e) with (cond_Zopp s (Z.pos m * 2 ^ e))
      by (destruct s; unfold cond_Zopp;
          [symmetry; apply Z.mul_opp_l | reflexivity]).
    split; [intros ->; reflexivity | apply (proj1 (inject_Z_injective _ _))].
  - apply Z.leb_gt in He.
    assert (Hpos : 0 < 2 ^ (- e)) by (apply Z.pow_pos_nonneg; lia).
    assert (Hy : ~ inject_Z (2 ^ (- e)) == 0).
    { intros H; apply (proj1 (inject_Z_injective _ 0)) in H; lia. }
    replace e with (- (- e)) at 2 by lia.
    rewrite Qpower_opp, two_pow_Q by lia.
    rewrite Z.eqb_eq; split.
    + intros ->; rewrite inject_Z_mult; field; exact Hy.
    + intros H; apply (proj1 (inject_Z_injective _ _)).
      rewrite inject_Z_mult, <- H; field; exact Hy.
Qed.

(** Truncating an integer-valued float gives that integer. *)
Lemma int_of_float_exact (s : bool) (m : positive) (e n : Z) :
  float_value (S754_finite s m e) == inject_Z n ->
  int_of_float (S754_finite s m e) = Ok n.
Proof.
  intros H; apply float_eq_int_value in H.
  unfold float_eq_int in H; unfold int_of_float; f_equal.
  destruct (0 <=? e) eqn:He.
  - apply Z.leb_le in He; apply Z.eqb_eq in H.
    rewrite Z.shiftl_mul_pow2 by exact He; exact H.
  - apply Z.leb_gt in He; apply Z.eqb_eq in H.
    assert (Hpos : 0 < 2 ^ (- e)) by (apply Z.pow_pos_nonneg; lia).
    replace e with (- (- e)) at 1 by lia.
    rewrite Z.shiftl_opp_r, Z.shiftr_div_pow2 by lia.
    destruct s; simpl in *.
    + replace (Z.pos m) with ((- n) * 2 ^ (- e)) by lia.
      rewrite Z.div_mul by lia; lia.
    + rewrite H, Z.div_mul by lia; reflexivity.
Qed.

Section FormatHours.

Variable float_repr : float -> pystr.

Lemma format_hours_int (n : Z) :
  format_hours float_repr (PyInt n)
  = Ok (str_of_int n ++ word_of (plural_form_of_int n)).
Proof.
  unfold format_hours, plural_form_of_int, mem; simpl.
  destruct (n mod 10 =? 1), (n mod 100 =? 11), (n mod 10 =? 2),
    (n mod 10 =? 3), (n mod 10 =? 4), (n mod 100 =? 12), (n mod 100 =? 13),
    (n mod 100 =? 14); reflexivity.
Qed.

Lemma format_hours_integral (f : float) (n : Z) :
  is_finite f = true -> float_value f == inject_Z n ->
  format_hours float_repr (PyFloat f)
  = Ok (str_of_int n ++ word_of (plural_form_of_int n)).
Proof.
  intros Hfin Hval; rewrite <- format_hours_int.
  destruct f as [z | | | s m e]; try discriminate.
  - simpl in Hval. apply (proj1 (inject_Z_injective 0 n)) in Hval; subst n.
    reflexivity.
  - unfold format_hours.
    rewrite (int_of_float_exact s m e n Hval); cbn [rbind].
    apply float_eq_int_value in Hval; rewrite Hval; reflexivity.
Qed.

Lemma format_hours_fractional (f : float) :
  is_finite f = true -> (forall n, ~ float_value f == inject_Z n) ->
  format_hours float_repr (PyFloat f) = Ok (float_repr f ++ word_few).
Proof.
  intros Hfin Hfrac.
  destruct f as [z | | | s m e]; try discriminate.
  - exfalso; apply (Hfrac 0); reflexivity.
  - unfold format_hours; cbn [int_of_float rbind].
    destruct (float_eq_int (S754_finite s m e)
                (cond_Zopp s (Z.shiftl (Z.pos m) e))) eqn:E; [|reflexivity].
    apply float_eq_int_value in E; exfalso; exact (Hfrac _ E).
Qed.

(** An infinity or a NaN has no integer part: [int] raises. *)
Lemma format_hours_not_finite :
  (forall s, format_hours float_repr (PyFloat (S754_infinity s))
             = Raise OverflowError)
  /\ format_hours float_repr (PyFloat S754_nan) = Raise ValueError.
Proof. split; reflexivity. Qed.

End FormatHours.

(** C3. [format_hours] follows the three-form agreement rule: a fractional
    value always takes the form "години"; an integer value [n] (given as a
    float or as an int) takes "година" when [n mod 10 = 1] and
    [n mod 100 <> 11], "години" when [n mod 10] is 2, 3 or 4 and [n mod 100]
    is not 12, 13 or 14, and "годин" otherwise. So 1 and 21 are singular,
    2, 3, 4, 22, 23, 24 take "години", 5..20 take "годин", and 2.5 takes
    "години". *)
Theorem format_hours_agreement (float_repr : float -> pystr) :
  (forall f : float,
      is_finite f = true -> (forall n, ~ float_value f == inject_Z n) ->
      format_hours float_repr (PyFloat f) = Ok (float_repr f ++ u " години"))
  /\ (forall (f : float) (n : Z),
      is_finite f = true -> float_value f == inject_Z n ->
      format_hours float_repr (PyFloat f)
      = Ok (str_of_int n ++ word_of (plural_form_of_int n)))
  /\ (forall n : Z,
      format_hours float_repr (PyInt n)
      = Ok (str_of_int n ++ word_of (plural_form_of_int n)))
  /\ word_of Singular = u " година"
  /\ word_of Few = u " години"
  /\ word_of Many = u " годин"
  /\ (forall n, In n [1; 21] ->
      format_hours float_repr (PyFloat (float_of_int n))
      = Ok (str_of_int n ++ u " година"))
  /\ (forall n, In n [2; 3; 4; 22; 23; 24] ->
      format_hours float_repr (PyFloat (float_of_int n))
      = Ok (str_of_int n ++ u " години"))
  /\ (forall n, 5 <= n <= 20 ->
      format_hours float_repr (PyFloat (float_of_int n))
      = Ok (str_of_int n ++ u " годин"))
  /\ float_value float_2_5 == 5 # 2
  /\ format_hours float_repr (PyFloat float_2_5)
     = Ok (float_repr float_2_5 ++ u " години").
Proof.
  split; [exact (format_hours_fractional float_repr)|].
  split; [exact (format_hours_integral float_repr)|].
  split; [exact (format_hours_int float_repr)|].
  repeat (split; [reflexivity|]).
  split.
  { intros n Hn; simpl in Hn.
    repeat (destruct Hn as [<- | Hn]; [reflexivity|]); contradiction. }
  split.
  { intros n Hn; simpl in Hn.
    repeat (destruct Hn as [<- | Hn]; [reflexivity|]); contradiction. }
  split.
  { intros n Hn.
    assert (H : In n (range 5 21)) by (apply range_In; lia).
    vm_compute in H.
    repeat (destruct H as [<- | H]; [reflexivity|]); contradiction. }
  split; reflexivity.
Qed.

(** ** The interval merger *)

Lemma tiles_le (slots : list bool) (a c : Z) (ivs : list interval) :
  tiles slots a c ivs -> a <= c.
Proof. induction 1; lia. Qed.

Lemma tiles_snoc (slots : list bool) (a b c : Z) (v : bool)
    (ivs : list interval) :
  tiles slots a b ivs -> b < c ->
  (forall j, b <= j < c -> slot_at slots j = v) ->
  tiles slots a c (ivs ++ [mk_interval b c v]).
Proof.
  intros Ht Hbc Hv; induction Ht as [a | a b' c' w ivs Hab Hw Ht IH]; simpl.
  - apply tiles_cons; [exact Hbc | exact Hv | apply tiles_nil].
  - apply tiles_cons; [exact Hab | exact Hw | apply IH; assumption].
Qed.

Lemma alternating_snoc (l : list bool) (x y : bool) :
  alternating (l ++ [x]) -> x <> y -> alternating ((l ++ [x]) ++ [y]).
Proof.
  intros Hl Hxy; induction l as [|a l IH]; simpl.
  - auto.
  - destruct l as [|b l]; simpl in *.
    + destruct Hl as [Hax _]; auto.
    + destruct Hl as [Hab Hl]; split; [exact Hab | apply IH, Hl].
Qed.

(** Durations of at most a day add without rounding. *)
Lemma half_hours_add_check :
  forallb (fun a =>
    forallb (fun d =>
      if a + d <=? 48
      then float_eqb (fadd (half_hours a) (half_hours d)) (half_hours (a + d))
      else true) (range 0 49)) (range 0 49) = true.
Proof. vm_compute; reflexivity. Qed.

Lemma half_hours_add (a d : Z) :
  0 <= a -> 0 <= d -> a + d <= 48 ->
  fadd (half_hours a) (half_hours d) = half_hours (a + d).
Proof.
  intros Ha Hd Hs; apply float_eqb_eq.
  pose proof (range_forallb 0 49 _ half_hours_add_check a ltac:(lia)) as H.
  cbv beta in H.
  pose proof (range_forallb 0 49 _ H d ltac:(lia)) as H'.
  cbv beta in H'.
  destruct (a + d <=? 48) eqn:E; [exact H' | apply Z.leb_gt in E; lia].
Qed.

Lemma tiles_fsum (slots : list bool) (a c : Z) (ivs : list interval) :
  tiles slots a c ivs -> 0 <= a -> c <= 48 ->
  fold_left fadd (map hours (map period_of ivs)) (half_hours a) = half_hours c.
Proof.
  induction 1 as [a | a b c v ivs Hab Hv Ht IH]; intros Ha Hc.
  - reflexivity.
  - pose proof (tiles_le _ _ _ _ Ht) as Hbc.
    cbn [map fold_left].
    change (hours (period_of (mk_interval a b v))) with (half_hours (b - a)).
    rewrite half_hours_add by lia.
    replace (a + (b - a)) with b by lia.
    apply IH; lia.
Qed.

Lemma merge_step_inv (slots : list bool) (st : merge_state) (i : Z)
    (ivs : list interval) :
  merge_inv slots st i ivs ->
  exists ivs', merge_inv slots (merge_step slots st i) (i + 1) ivs'.
Proof.
  intros [Hp Ht Hs Hr Ha]; unfold merge_step.
  fold (slot_at slots i).
  destruct (Bool.eqb (slot_at slots i) (current_status st)) eqn:E; simpl.
  - apply Bool.eqb_prop in E.
    exists ivs; split; auto; [lia|].
    intros j Hj; destruct (Z.eq_dec j i) as [-> | Hne]; [exact E | apply Hr; lia].
  - apply Bool.eqb_false_iff in E.
    exists (ivs ++ [mk_interval (start_slot st) i (current_status st)]).
    split; simpl.
    + rewrite Hp, map_app; reflexivity.
    + apply tiles_snoc; [exact Ht | lia | exact Hr].
    + lia.
    + intros j Hj; replace j with i by lia; reflexivity.
    + rewrite map_app; simpl; apply alternating_snoc; [exact Ha | congruence].
Qed.

Lemma merge_loop_inv (slots : list bool) (n : nat) :
  exists ivs,
    merge_inv slots
      (fold_left (merge_step slots) (range 1 (1 + Z.of_nat n)) (merge_init slots))
      (1 + Z.of_nat n) ivs.
Proof.
  induction n as [|n [ivs IH]].
  - exists []; split; simpl;
      [ reflexivity | apply tiles_nil | lia
      | intros j Hj; replace j with 0 by lia; reflexivity | exact I ].
  - rewrite range_snoc, fold_left_app; simpl fold_left.
    destruct (merge_step_inv _ _ _ _ IH) as [ivs' H].
    exists ivs'; replace (1 + Z.of_nat (S n)) with (1 + Z.of_nat n + 1) by lia.
    exact H.
Qed.

(** The merge phase on any non-empty slot sequence of at most a day. *)
Lemma merge_slots_tiles (slots : list bool) :
  (1 <= length slots <= 48)%nat ->
  exists ivs,
    merge_slots slots = map period_of ivs
    /\ tiles slots 0 (Z.of_nat (length slots)) ivs
    /\ alternating (map powered ivs)
    /\ fsum (map hours (merge_slots slots))
       = half_hours (Z.of_nat (length slots)).
Proof.
  intros Hlen; destruct slots as [|slot_0 rest]; [simpl in Hlen; lia|].
  set (slots := slot_0 :: rest) in *.
  destruct (merge_loop_inv slots (length rest)) as [ivs [Hp Ht Hs Hr Ha]].
  assert (Hl : Z.of_nat (length slots) = 1 + Z.of_nat (length rest))
    by (unfold slots; simpl length; lia).
  set (st := fold_left (merge_step slots)
               (range 1 (1 + Z.of_nat (length rest))) (merge_init slots)) in *.
  assert (Hm : merge_slots slots
               = map period_of
                   (ivs ++ [mk_interval (start_slot st)
                              (Z.of_nat (length slots)) (current_status st)])).
  { unfold merge_slots, slots at 1; fold slots.
    rewrite Hl, map_app, <- Hp; reflexivity. }
  exists (ivs ++ [mk_interval (start_slot st) (Z.of_nat (length slots))
                    (current_status st)]).
  assert (Htiles : tiles slots 0 (Z.of_nat (length slots))
            (ivs ++ [mk_interval (start_slot st) (Z.of_nat (length slots))
                       (current_status st)])).
  { apply tiles_snoc; [exact Ht | lia |].
    intros j Hj; apply Hr; lia. }
  split; [exact Hm|].
  split; [exact Htiles|].
  split; [rewrite map_app; exact Ha|].
  rewrite Hm; unfold fsum.
  change float_zero with (half_hours 0).
  apply (tiles_fsum slots); [exact Htiles | lia | lia].
Qed.

(** C2. For every sequence of 48 boolean slots, the periods of the merge phase
    are the image of a list of intervals that tile the slots 0..48 (each
    non-empty, each starting where the previous one ends, every slot inside
    an interval in the interval's state), neighbouring intervals differ in
    state, and the hours of the periods add up to the float 24.0. *)
Theorem merge_slots_partition (slots : list bool) :
  length slots = 48%nat ->
  exists ivs : list interval,
    merge_slots slots = map period_of ivs
    /\ tiles slots 0 48 ivs
    /\ alternating (map powered ivs)
    /\ alternating (map is_on (merge_slots slots))
    /\ fsum (map hours (merge_slots slots)) = float_24
    /\ float_value float_24 == 24.
Proof.
  intros Hlen.
  destruct (merge_slots_tiles slots) as [ivs (Hm & Ht & Ha & Hs)]; [lia|].
  rewrite Hlen in Ht, Hs.
  exists ivs.
  split; [exact Hm|].
  split; [exact Ht|].
  split; [exact Ha|].
  split; [rewrite Hm, map_map; exact Ha|].
  split; [rewrite Hs; vm_compute; reflexivity|].
  vm_compute; reflexivity.
Qed.

(** ** build_schedule on any mapping *)

Lemma tiles_first (slots : list bool) (a c : Z) (ivs : list interval) :
  tiles slots a c ivs -> a < c ->
  exists b v rest, ivs = mk_interval a b v :: rest.
Proof.
  intros Ht Hac; destruct Ht as [a | a b c v ivs Hab Hv Ht]; [lia|].
  exists b, v, ivs; reflexivity.
Qed.

Lemma tiles_last (slots : list bool) (a c : Z) (ivs : list interval) :
  tiles slots a c ivs -> a < c ->
  exists front b v, ivs = front ++ [mk_interval b c v].
Proof.
  induction 1 as [a | a b c v ivs Hab Hv Ht IH]; intros Hac; [lia|].
  destruct (Z.eq_dec b c) as [-> | Hne].
  - inversion Ht as [a' E1 E2 | a' b' c' v' ivs' Hlt _ Ht' E1 E2 E3]; subst.
    + exists [], a, v; reflexivity.
    + apply tiles_le in Ht'; lia.
  - apply tiles_le in Ht as Hle.
    destruct IH as (front & b' & v' & ->); [lia|].
    exists (mk_interval a b v :: front), b', v'; reflexivity.
Qed.

(** C9. For every input mapping, [build_schedule] works on exactly 48 slots,
    so its empty-slot branch is never taken: the result is non-empty, its
    first period starts at "00:00", its last period ends at "24:00", and the
    hours add up to the float 24.0. *)
Theorem build_schedule_whole_day (day_data : pydict) :
  length (encode_slots day_data) = 48%nat
  /\ encode_slots day_data <> []
  /\ build_schedule day_data <> []
  /\ option_map start (hd_error (build_schedule day_data)) = Some (u "00:00")
  /\ option_map end_ (hd_error (rev (build_schedule day_data)))
     = Some (u "24:00")
  /\ fsum (map hours (build_schedule day_data)) = float_24.
Proof.
  pose proof (encode_slots_length day_data) as Hlen.
  destruct (merge_slots_tiles (encode_slots day_data))
    as [ivs (Hm & Ht & _ & Hsum)]; [lia|].
  rewrite Hlen in Ht, Hsum.
  change (half_hours (Z.of_nat 48)) with float_24 in Hsum.
  change (Z.of_nat 48) with 48 in Ht.
  fold (build_schedule day_data) in Hm, Hsum.
  destruct (tiles_first _ _ _ _ Ht) as (b & v & rest & Hfirst); [lia|].
  destruct (tiles_last _ _ _ _ Ht) as (front & b' & v' & Hlast); [lia|].
  split; [exact Hlen|].
  split; [intros E; rewrite E in Hlen; discriminate|].
  split; [rewrite Hm, Hfirst; discriminate|].
  split; [rewrite Hm, Hfirst; reflexivity|].
  split; [|exact Hsum].
  rewrite Hm, Hlast, map_app, rev_app_distr; reflexivity.
Qed.

(** ** The scenario: hour 1 off, every other hour on *)

Lemma days_lookup_ok (w : Z) :
  0 <= w <= 6 -> exists name, days_lookup DAYS_UA w = Ok name.
Proof.
  intros Hw.
  assert (H : In w (range 0 7)) by (apply range_In; lia).
  vm_compute in H.
  repeat (destruct H as [<- | H]; [eexists; reflexivity|]); contradiction.
Qed.

(** C5, as the program behaves. With hour "1" off and every other hour on,
    [build_schedule] yields the periods 00:00-01:00 (off, 1.0 hour) and
    01:00-24:00 (on, 23.0 hours), and the message of
    [format_schedule_message] ends with the summary lines
    "Світло є 23 години" and "Світла нема 1 година". *)
Theorem hour_1_off_schedule (float_repr : float -> pystr) (date : datetime)
    (group : pystr) (is_today : bool) :
  0 <= weekday date <= 6 ->
  build_schedule day_hour_1_off
  = [ {| start := u "00:00"; end_ := u "01:00"; is_on := false;
         hours := float_of_int 1 |};
      {| start := u "01:00"; end_ := u "24:00"; is_on := true;
         hours := float_of_int 23 |} ]
  /\ exists header : pystr,
      format_schedule_message float_repr (build_schedule day_hour_1_off)
        date group is_today
      = Ok (join [10]
              [ header;
                u "🪫00:00 - 01:00 (1 година)";
                u "🔋01:00 - 24:00 (23 години)";
                [];
                u "Світло є 23 години";
                u "Світла нема 1 година" ]).
Proof.
  intros Hw; split; [vm_compute; reflexivity|].
  destruct (days_lookup_ok _ Hw) as [name Hname].
  exists (s_header_1 ++ (if is_today then s_today else s_tomorrow)
            ++ s_header_2 ++ strftime_d_m date ++ s_header_3 ++ name
            ++ s_header_4 ++ replace s_GPV [] group ++ s_header_5).
  unfold format_schedule_message; rewrite Hname; cbn [rbind].
  replace (build_schedule day_hour_1_off)
    with [ {| start := u "00:00"; end_ := u "01:00"; is_on := false;
              hours := float_of_int 1 |};
           {| start := u "01:00"; end_ := u "24:00"; is_on := true;
              hours := float_of_int 23 |} ]
    by (vm_compute; reflexivity).
  reflexivity.
Qed.

Lemma hour_1_off_not_two_hours :
  build_schedule day_hour_1_off <> expected_hour_1_off.
Proof. vm_compute; discriminate. Qed.

(** ** The delivery chunker *)

Lemma strip_prefix_some (pre s rest : pystr) :
  strip_prefix pre s = Some rest <-> s = pre ++ rest.
Proof.
  revert s; induction pre as [|x pre IH]; intros s; simpl.
  - split; [intros [= ->]; reflexivity | intros ->; reflexivity].
  - destruct s as [|y s]; [split; discriminate|].
    destruct (Z.eqb_spec x y) as [-> | Hne].
    + rewrite IH; split; [intros ->; reflexivity | intros [= ->]; reflexivity].
    + split; [discriminate | intros [= E _]; congruence].
Qed.

Lemma find_sep_some (sep s before rest : pystr) :
  find_sep sep s = Some (before, rest) -> s = before ++ sep ++ rest.
Proof.
  revert before; induction s as [|c s IH]; intros before; simpl.
  - destruct (strip_prefix sep []) eqn:E; [|discriminate].
    intros [= <- <-]; apply (proj1 (strip_prefix_some _ _ _)) in E; exact E.
  - destruct (strip_prefix sep (c :: s)) eqn:E.
    + intros [= <- <-]; apply (proj1 (strip_prefix_some _ _ _)) in E; exact E.
    + destruct (find_sep sep s) as [[b r]|]; [|discriminate].
      intros [= <- <-]; rewrite (IH b eq_refl); reflexivity.
Qed.

Lemma find_sep_none (sep s : pystr) :
  find_sep sep s = None -> ~ occurs sep s.
Proof.
  induction s as [|c s IH]; simpl.
  - destruct (strip_prefix sep []) eqn:E; [discriminate|].
    intros _ (a & b & H).
    destruct a; [|discriminate].
    simpl in H; apply (proj2 (strip_prefix_some _ _ _)) in H; congruence.
  - destruct (strip_prefix sep (c :: s)) eqn:E; [discriminate|].
    destruct (find_sep sep s) as [[b r]|]; [discriminate|].
    intros _ (a & b & H).
    destruct a as [|x a].
    + simpl in H; apply (proj2 (strip_prefix_some _ _ _)) in H; congruence.
    + injection H as _ H; apply IH; [reflexivity | exists a, b; exact H].
Qed.

(** The text before the first occurrence holds no occurrence. *)
Lemma find_sep_before (sep s before rest : pystr) :
  sep <> [] -> find_sep sep s = Some (before, rest) -> ~ occurs sep before.
Proof.
  intros Hsep; revert before; induction s as [|c s IH]; intros before; simpl.
  - destruct (strip_prefix sep []) eqn:E; [|discriminate].
    intros [= <- <-] (a & b & H).
    destruct a; [destruct sep; [congruence | discriminate] | discriminate].
  - destruct (strip_prefix sep (c :: s)) eqn:E.
    + intros [= <- <-] (a & b & H).
      destruct a; [destruct sep; [congruence | discriminate] | discriminate].
    + destruct (find_sep sep s) as [[b r]|] eqn:F; [|discriminate].
      intros [= <- <-] (a & b' & H).
      destruct a as [|x a].
      * apply find_sep_some in F.
        assert (Hp : c :: s = sep ++ (b' ++ sep ++ r)).
        { rewrite F, app_comm_cons, H; simpl.
          rewrite <- !app_assoc; reflexivity. }
        apply (proj2 (strip_prefix_some _ _ _)) in Hp; congruence.
      * injection H as _ H; apply (IH b eq_refl); exists a, b'; exact H.
Qed.

Lemma split_fuel_nonempty (fuel : nat) (sep s : pystr) :
  split_fuel fuel sep s <> [].
Proof.
  destruct fuel; simpl; [discriminate|].
  destruct (find_sep sep s) as [[b r]|]; discriminate.
Qed.

Lemma join_cons (sep p : pystr) (rest : list pystr) :
  rest <> [] -> join sep (p :: rest) = p ++ sep ++ join sep rest.
Proof. destruct rest; [congruence | reflexivity]. Qed.

(** Joining the parts with the separator gives the text back. *)
Lemma split_fuel_join (fuel : nat) (sep s : pystr) :
  join sep (split_fuel fuel sep s) = s.
Proof.
  revert s; induction fuel as [|fuel IH]; intros s; simpl; [reflexivity|].
  destruct (find_sep sep s) as [[b r]|] eqn:F; [|reflexivity].
  rewrite join_cons by apply split_fuel_nonempty.
  rewrite IH; symmetry; apply find_sep_some, F.
Qed.

(** With enough rounds, no part holds the separator. *)
Lemma split_fuel_parts (fuel : nat) (sep s : pystr) :
  sep <> [] -> (length s <= fuel)%nat ->
  Forall (fun part => ~ occurs sep part) (split_fuel fuel sep s).
Proof.
  intros Hsep; revert s; induction fuel as [|fuel IH]; intros s Hlen; simpl.
  - constructor; [|constructor].
    destruct s; [|simpl in Hlen; lia].
    intros (a & b & H).
    destruct a; [destruct sep; [congruence | discriminate] | discriminate].
  - destruct (find_sep sep s) as [[b r]|] eqn:F.
    + constructor; [exact (find_sep_before _ _ _ _ Hsep F)|].
      apply IH.
      apply find_sep_some in F; subst s.
      rewrite !length_app in Hlen.
      destruct sep; [congruence | simpl in Hlen; lia].
    + constructor; [exact (find_sep_none _ _ F) | constructor].
Qed.

(** When the separator occurs once only, the cut is at that place. *)
Lemma split_two (sep g1 g2 : pystr) :
  sep <> [] ->
  (forall a b, g1 ++ sep ++ g2 = a ++ sep ++ b -> a = g1 /\ b = g2) ->
  split sep (g1 ++ sep ++ g2) = [g1; g2]
  /\ ~ occurs sep g1 /\ ~ occurs sep g2.
Proof.
  intros Hsep Huniq.
  assert (H2 : ~ occurs sep g2).
  { intros (a & b & ->).
    destruct (Huniq (g1 ++ sep ++ a) b) as [E _].
    { rewrite <- !app_assoc; reflexivity. }
    apply (f_equal (@length Z)) in E; rewrite !length_app in E.
    destruct sep; [congruence | simpl in E; lia]. }
  assert (H1 : ~ occurs sep g1).
  { intros (a & b & ->).
    destruct (Huniq a (b ++ sep ++ g2)) as [E _].
    { rewrite <- !app_assoc; reflexivity. }
    apply (f_equal (@length Z)) in E; rewrite !length_app in E.
    destruct sep; [congruence | simpl in E; lia]. }
  split; [|split; assumption].
  unfold split.
  assert (Hlen : (0 < length (g1 ++ sep ++ g2))%nat).
  { rewrite !length_app; destruct sep; [congruence | simpl; lia]. }
  destruct (length (g1 ++ sep ++ g2)) as [|fuel]; [lia|]; simpl.
  destruct (find_sep sep (g1 ++ sep ++ g2)) as [[b r]|] eqn:F.
  - destruct (Huniq b r (find_sep_some _ _ _ _ F)) as [-> ->].
    f_equal.
    destruct fuel; simpl; [reflexivity|].
    destruct (find_sep sep g2) as [[b' r']|] eqn:F2; [|reflexivity].
    exfalso; apply H2; exists b', r'; apply find_sep_some, F2.
  - exfalso; apply (find_sep_none _ _ F); exists g1, g2; reflexivity.
Qed.

(** Sections without an equals sign, as the renderer writes them, leave the
    separator between them as the only occurrence. *)
Lemma group_separator_once (g1 g2 : pystr) :
  ~ In 61 g1 -> ~ In 61 g2 ->
  forall a b,
    g1 ++ group_separator ++ g2 = a ++ group_separator ++ b ->
    a = g1 /\ b = g2.
Proof.
  intros H1 H2; unfold group_separator.
  induction g1 as [|c g1 IH]; intros a b H.
  - destruct a as [|x0 a]; simpl in H.
    { injection H as ->; auto. }
    exfalso.
    destruct a as [|x1 a]; simpl in H; [discriminate|].
    destruct a as [|x2 a]; simpl in H; [discriminate|].
    destruct a as [|x3 a]; simpl in H; [discriminate|].
    destruct a as [|x4 a]; simpl in H.
    { apply (f_equal (skipn 5)) in H; simpl in H.
      apply H2; rewrite H; simpl; auto. }
    apply (f_equal (skipn 5)) in H; simpl in H.
    apply H2; rewrite H; apply in_or_app; right; simpl; auto.
  - destruct a as [|x0 a]; simpl in H.
    + exfalso; injection H as -> H.
      destruct g1 as [|d g1]; simpl in H; [discriminate|].
      injection H as -> _; apply H1; simpl; auto.
    + injection H as -> H.
      destruct (IH (fun E => H1 (or_intror E)) a b H) as [-> ->]; auto.
Qed.

Lemma send_parts_all_delivered (E : env) (parts : list pystr) (bound : bool)
    (w : world) :
  (forall k part, transport E k part = Responded true) ->
  send_parts E parts bound w
  = (Ok true, {| marker := marker w; posts := posts w ++ parts |}).
Proof.
  intros Hok; revert bound w; induction parts as [|part rest IH];
    intros bound w; simpl.
  - unfold io_ret; rewrite app_nil_r; destruct w; reflexivity.
  - rewrite Hok, IH; simpl; rewrite <- app_assoc; reflexivity.
Qed.

(** C6. A text of at most 4000 characters is one payload. A longer text is
    cut at the group separator: the parts joined by the separator give the
    text back and no part contains the separator. A report of two group
    sections, in which the separator occurs between the sections only, that
    is longer than 4000 characters is cut into exactly the two sections,
    neither of which contains the separator. With credentials configured and
    an endpoint that accepts every request, the payloads posted are these
    parts, in order. *)
Theorem message_parts_chunks (message : pystr) :
  (Z.of_nat (length message) <= 4000 -> message_parts message = [message])
  /\ (4000 < Z.of_nat (length message) ->
      join group_separator (message_parts message) = message
      /\ Forall (fun part => ~ occurs group_separator part)
           (message_parts message))
  /\ (forall g1 g2 : pystr,
      message = g1 ++ group_separator ++ g2 ->
      (forall a b, message = a ++ group_separator ++ b -> a = g1 /\ b = g2) ->
      4000 < Z.of_nat (length message) ->
      message_parts message = [g1; g2]
      /\ ~ occurs group_separator g1 /\ ~ occurs group_separator g2)
  /\ (forall (E : env) (w : world),
      str_truthy (TELEGRAM_BOT_TOKEN E) = true ->
      str_truthy (TELEGRAM_CHANNEL_ID E) = true ->
      (forall k part, transport E k part = Responded true) ->
      send_telegram_message E message w
      = (Ok true,
         {| marker := marker w; posts := posts w ++ message_parts message |})).
Proof.
  assert (Hsep : group_separator <> []) by discriminate.
  split; [|split; [|split]].
  - intros Hlen; unfold message_parts, max_length.
    destruct (Z.leb_spec (Z.of_nat (length message)) 4000); [reflexivity | lia].
  - intros Hlen; unfold message_parts, max_length.
    destruct (Z.leb_spec (Z.of_nat (length message)) 4000); [lia|].
    split; [apply split_fuel_join|].
    apply split_fuel_parts; [exact Hsep | lia].
  - intros g1 g2 -> Huniq Hlen; unfold message_parts, max_length.
    destruct (Z.leb_spec (Z.of_nat (length (g1 ++ group_separator ++ g2))) 4000);
      [lia|].
    apply split_two; assumption.
  - intros E w Htoken Hchannel Hok; unfold send_telegram_message.
    rewrite Htoken, Hchannel; simpl.
    apply send_parts_all_delivered, Hok.
Qed.

(** ** The revision gate *)

Lemma send_parts_marker (E : env) (parts : list pystr) (bound : bool)
    (w : world) :
  marker (snd (send_parts E parts bound w)) = marker w.
Proof.
  revert bound w; induction parts as [|part rest IH]; intros bound w; simpl.
  - reflexivity.
  - destruct (transport E (length (posts w)) part) as [|[|]]; simpl.
    + destruct bound; reflexivity.
    + rewrite IH; reflexivity.
    + reflexivity.
Qed.

Lemma send_telegram_message_marker (E : env) (message : pystr) (w : world) :
  marker (snd (send_telegram_message E message w)) = marker w.
Proof.
  unfold send_telegram_message.
  destruct (negb _ || negb _); [reflexivity | apply send_parts_marker].
Qed.

Section Gate.

Variable float_repr : float -> pystr.
Variable int_of_str : pystr -> result Z.
Variable fromtimestamp : Z -> result datetime.

(** [main] once the feed is fetched and its hash is a string. *)
Lemma main_fetched (E : env) (w : world) (data : json) (h : pystr) :
  feed E = Some data -> truthy data = true ->
  content_hash_of data = Ok (JStr h) ->
  main float_repr int_of_str fromtimestamp E w =
    if hash_eq (JStr h) (cached_hash_of w) then (Ok tt, w)
    else
      match format_full_message float_repr int_of_str fromtimestamp data with
      | Raise e => (Raise e, w)
      | Ok None | Ok (Some []) => (Ok tt, w)
      | Ok (Some (c :: text)) =>
          match send_telegram_message E (c :: text) w with
          | (Ok true, w1) => save_hash E (JStr h) w1
          | (Ok false, w1) => (Ok tt, w1)
          | (Raise e, w1) => (Raise e, w1)
          end
      end.
Proof.
  intros Hfeed Htruthy Hhash.
  unfold main, fetch_data; rewrite Hfeed, Htruthy.
  cbv [negb io_bind io_lift io_ret get_cached_hash]; rewrite Hhash.
  destruct (hash_eq (JStr h) (cached_hash_of w)); [reflexivity|].
  cbv [slice_16].
  destruct (format_full_message float_repr int_of_str fromtimestamp data)
    as [[[|c text]|]|e]; try reflexivity.
  cbv [str_truthy].
  destruct (send_telegram_message E (c :: text) w) as [[[|]|e] w1];
    reflexivity.
Qed.

(** A report that is a string comes from a non-empty document. *)
Lemma report_some_truthy (data : json) (text : pystr) :
  format_full_message float_repr int_of_str fromtimestamp data
  = Ok (Some text) ->
  truthy data = true.
Proof.
  unfold format_full_message, fact_data_of, json_get.
  destruct data as [| | | | | |d]; try discriminate.
  destruct d as [|kv d]; [|reflexivity].
  intros H; discriminate H.
Qed.

(** C1, as the program behaves. For a run that fetched a document whose
    contentHash is a string [h]: when [h] equals the hash read from the
    marker file, the run posts nothing and leaves the marker as it is; when
    the hashes differ and the report is [None] or empty, the same; when the
    hashes differ, the report is a non-empty text and the file encoding can
    encode [h], the run hands the text to [send_telegram_message], the
    delivery attempts of the run are those of that call, the marker file
    receives [h] when the call returns [True], and stays as it was when the
    call returns [False] or raises. *)
Theorem revision_gate (E : env) (w : world) (data : json) (h : pystr) :
  feed E = Some data ->
  content_hash_of data = Ok (JStr h) ->
  (hash_eq (JStr h) (cached_hash_of w) = true ->
   main float_repr int_of_str fromtimestamp E w = (Ok tt, w))
  /\ (hash_eq (JStr h) (cached_hash_of w) = false ->
      format_full_message float_repr int_of_str fromtimestamp data = Ok None
      \/ format_full_message float_repr int_of_str fromtimestamp data
         = Ok (Some []) ->
      snd (main float_repr int_of_str fromtimestamp E w) = w)
  /\ (forall text : pystr,
      hash_eq (JStr h) (cached_hash_of w) = false ->
      format_full_message float_repr int_of_str fromtimestamp data
      = Ok (Some text) ->
      text <> [] ->
      forallb (file_encodable E) h = true ->
      let (sent, w1) := send_telegram_message E text w in
      posts (snd (main float_repr int_of_str fromtimestamp E w)) = posts w1
      /\ marker w1 = marker w
      /\ (sent = Ok true ->
          main float_repr int_of_str fromtimestamp E w
          = (Ok tt, {| marker := Some (write_newlines (linesep E) h);
                       posts := posts w1 |}))
      /\ (sent <> Ok true ->
          marker (snd (main float_repr int_of_str fromtimestamp E w))
          = marker w)).
Proof.
  intros Hfeed Hhash.
  assert (Hfalsy : truthy data = false ->
            main float_repr int_of_str fromtimestamp E w = (Ok tt, w)).
  { intros Hf; unfold main, fetch_data; rewrite Hfeed, Hf; reflexivity. }
  split; [|split].
  - intros Heq; destruct (truthy data) eqn:Htruthy; [|auto].
    rewrite (main_fetched E w data h Hfeed Htruthy Hhash), Heq; reflexivity.
  - intros Hdiff Hnone; destruct (truthy data) eqn:Htruthy;
      [|rewrite Hfalsy by reflexivity; reflexivity].
    rewrite (main_fetched E w data h Hfeed Htruthy Hhash), Hdiff.
    destruct Hnone as [-> | ->]; reflexivity.
  - intros text Hdiff Hreport Htext Henc.
    pose proof (report_some_truthy data text Hreport) as Htruthy.
    rewrite (main_fetched E w data h Hfeed Htruthy Hhash), Hdiff, Hreport.
    destruct text as [|c text]; [congruence|].
    pose proof (send_telegram_message_marker E (c :: text) w) as Hm.
    unfold save_hash; rewrite Henc.
    destruct (send_telegram_message E (c :: text) w) as [[[|]|e] w1];
      simpl in Hm; simpl; repeat split; auto; try congruence.
Qed.

(** No day data for a group: the inner loop adds nothing. *)
Lemma group_days_no_data (fact_data : json) (group : pystr) (days : list pystr)
    (idx : Z) (group_messages : list pystr) :
  (forall day_ts, In day_ts days ->
     exists day_data,
       group_day_data fact_data day_ts group = Ok day_data
       /\ truthy day_data = false) ->
  group_days float_repr int_of_str fromtimestamp fact_data group idx days
    group_messages
  = Ok group_messages.
Proof.
  revert idx; induction days as [|day_ts rest IH]; intros idx Hno; simpl.
  - reflexivity.
  - destruct (Hno day_ts (or_introl eq_refl)) as (day_data & -> & Hfalsy).
    cbn [rbind]; rewrite Hfalsy; cbn [negb].
    apply IH; intros d Hd; apply Hno; right; exact Hd.
Qed.

Lemma all_groups_no_data (fact_data : json) (sorted_days gs : list pystr)
    (all_messages : list pystr) :
  (forall day_ts group,
     In day_ts (firstn 2 sorted_days) -> In group gs ->
     exists day_data,
       group_day_data fact_data day_ts group = Ok day_data
       /\ truthy day_data = false) ->
  all_groups float_repr int_of_str fromtimestamp fact_data sorted_days gs
    all_messages
  = Ok all_messages.
Proof.
  induction gs as [|group rest IH]; intros Hno; simpl.
  - reflexivity.
  - rewrite group_days_no_data
      by (intros d Hd; apply Hno; [exact Hd | left; reflexivity]).
    cbn [rbind]; apply IH.
    intros d g Hd Hg; apply Hno; [exact Hd | right; exact Hg].
Qed.

(** C10. When [fact.data] is a non-empty mapping but neither configured
    group has day data under its two earliest timestamps,
    [format_full_message] returns the empty string; [main] then stops before
    any delivery and leaves the marker file as it is, although the feed's
    hash differs from the cached one. *)
Theorem no_group_data_no_delivery (E : env) (w : world) (data : json)
    (fact_data : pydict) (sorted_days : list pystr) (h : pystr) :
  feed E = Some data ->
  content_hash_of data = Ok (JStr h) ->
  hash_eq (JStr h) (cached_hash_of w) = false ->
  fact_data_of data = Ok (JDict fact_data) ->
  fact_data <> [] ->
  sorted_by_int int_of_str (map fst fact_data) = Ok sorted_days ->
  (forall day_ts group,
     In day_ts (firstn 2 sorted_days) -> In group groups ->
     exists day_data,
       group_day_data (JDict fact_data) day_ts group = Ok day_data
       /\ truthy day_data = false) ->
  format_full_message float_repr int_of_str fromtimestamp data = Ok (Some [])
  /\ main float_repr int_of_str fromtimestamp E w = (Ok tt, w).
Proof.
  intros Hfeed Hhash Hdiff Hfact Hne Hsorted Hno.
  assert (Hreport :
    format_full_message float_repr int_of_str fromtimestamp data
    = Ok (Some [])).
  { unfold format_full_message; rewrite Hfact; cbn [rbind].
    destruct fact_data as [|kv fact_data']; [congruence|].
    cbn [truthy negb json_keys rbind].
    rewrite Hsorted; cbn [rbind].
    rewrite all_groups_no_data by exact Hno.
    reflexivity. }
  split; [exact Hreport|].
  assert (Htruthy : truthy data = true).
  { unfold fact_data_of, json_get in Hfact.
    destruct data as [| | | | | |d]; try discriminate.
    destruct d; [|reflexivity].
    simpl in Hfact; injection Hfact as <-; congruence. }
  rewrite (main_fetched E w data h Hfeed Htruthy Hhash), Hdiff, Hreport.
  reflexivity.
Qed.

End Gate.

Lemma revision_gate_witness :
  let E := example_env example_feed endpoint_ok in
  let h := u "abc" in
  (feed E = Some example_feed
   /\ content_hash_of example_feed = Ok (JStr h)
   /\ hash_eq (JStr h) (cached_hash_of first_run) = false
   /\ format_full_message repr_halves int_of_digits utc_fromtimestamp
        example_feed = Ok (Some example_report)
   /\ example_report <> []
   /\ forallb (file_encodable E) h = true)
  /\ example_main E first_run
     = (Ok tt, {| marker := Some h; posts := [example_report] |}).
Proof.
  intros E h.
  assert (Hfeed : feed E = Some example_feed) by reflexivity.
  assert (Hhash : content_hash_of example_feed = Ok (JStr h))
    by (vm_compute; reflexivity).
  assert (Hdiff : hash_eq (JStr h) (cached_hash_of first_run) = false)
    by (vm_compute; reflexivity).
  assert (Hreport : format_full_message repr_halves int_of_digits
                      utc_fromtimestamp example_feed = Ok (Some example_report))
    by (vm_compute; reflexivity).
  assert (Htext : example_report <> []) by (vm_compute; discriminate).
  assert (Henc : forallb (file_encodable E) h = true)
    by (vm_compute; reflexivity).
  split; [repeat split; assumption|].
  destruct (revision_gate repr_halves int_of_digits utc_fromtimestamp
              E first_run example_feed h Hfeed Hhash)
    as (_ & _ & Hdiffer).
  specialize (Hdiffer example_report Hdiff Hreport Htext Henc).
  assert (Hsend : send_telegram_message E example_report first_run
                  = (Ok true, {| marker := None; posts := [example_report] |}))
    by (vm_compute; reflexivity).
  rewrite Hsend in Hdiffer.
  destruct Hdiffer as (_ & _ & Hyes & _); exact (Hyes eq_refl).
Defined.

(** Hashes that differ do not always lead to a delivery: with no day in the
    feed there is no report and the run stops, credentials and endpoint being
    in order. *)
Lemma revision_gate_differ_without_attempt :
  let E := example_env example_feed_no_days endpoint_ok in
  content_hash_of example_feed_no_days = Ok (JStr (u "abc"))
  /\ hash_eq (JStr (u "abc")) (cached_hash_of first_run) = false
  /\ str_truthy (TELEGRAM_BOT_TOKEN E) = true
  /\ str_truthy (TELEGRAM_CHANNEL_ID E) = true
  /\ format_full_message repr_halves int_of_digits utc_fromtimestamp
       example_feed_no_days = Ok None
  /\ example_main E first_run = (Ok tt, first_run)
  /\ posts (snd (example_main E first_run)) = [].
Proof. intros E; repeat split; vm_compute; reflexivity. Qed.

Lemma no_group_data_no_delivery_witness :
  let E := example_env example_feed_other_group endpoint_ok in
  let h := u "abc" in
  let fact_data :=
    [ (u "1700000000", JDict [ (u "GPV1.1", JDict [ (u "1", JStr s_no) ]) ]) ] in
  (feed E = Some example_feed_other_group
   /\ content_hash_of example_feed_other_group = Ok (JStr h)
   /\ hash_eq (JStr h) (cached_hash_of first_run) = false
   /\ fact_data_of example_feed_other_group = Ok (JDict fact_data)
   /\ fact_data <> []
   /\ sorted_by_int int_of_digits (map fst fact_data) = Ok [u "1700000000"])
  /\ format_full_message repr_halves int_of_digits utc_fromtimestamp
       example_feed_other_group = Ok (Some [])
  /\ example_main E first_run = (Ok tt, first_run).
Proof.
  intros E h fact_data.
  assert (Hfeed : feed E = Some example_feed_other_group) by reflexivity.
  assert (Hhash : content_hash_of example_feed_other_group = Ok (JStr h))
    by (vm_compute; reflexivity).
  assert (Hdiff : hash_eq (JStr h) (cached_hash_of first_run) = false)
    by (vm_compute; reflexivity).
  assert (Hfact : fact_data_of example_feed_other_group = Ok (JDict fact_data))
    by (vm_compute; reflexivity).
  assert (Hne : fact_data <> []) by discriminate.
  assert (Hsorted : sorted_by_int int_of_digits (map fst fact_data)
                    = Ok [u "1700000000"])
    by (vm_compute; reflexivity).
  split; [repeat split; assumption|].
  apply (no_group_data_no_delivery repr_halves int_of_digits utc_fromtimestamp
           E first_run example_feed_other_group fact_data [u "1700000000"] h
           Hfeed Hhash Hdiff Hfact Hne Hsorted).
  intros day_ts group Hday Hgroup.
  exists JNull; split; [|reflexivity].
  simpl in Hday; destruct Hday as [<- | []].
  simpl in Hgroup; destruct Hgroup as [<- | [<- | []]]; vm_compute; reflexivity.
Defined.

(** ** Exceptions that leave the run *)

(** A first request that raises finds [response] unassigned. *)
Lemma send_first_post_raises (E : env) (message : pystr) (w : world) :
  str_truthy (TELEGRAM_BOT_TOKEN E) = true ->
  str_truthy (TELEGRAM_CHANNEL_ID E) = true ->
  (forall part, transport E (length (posts w)) part = PostRaises) ->
  fst (send_telegram_message E message w) = Raise UnboundLocalError.
Proof.
  intros Htoken Hchannel Hdown; unfold send_telegram_message.
  rewrite Htoken, Hchannel; simpl negb; simpl orb; cbv iota.
  assert (Hparts : message_parts message <> []).
  { unfold message_parts, split.
    destruct (_ <=? _); [discriminate | apply split_fuel_nonempty]. }
  destruct (message_parts message) as [|part rest]; [congruence|].
  simpl; rewrite Hdown; reflexivity.
Qed.

(** C8 fails on the program. With credentials configured, when the first
    [requests.post] of a delivery raises, the handler reads the local
    variable [response], which was never assigned: [UnboundLocalError] leaves
    [send_telegram_message] and then [main]. *)
Theorem post_failure_escapes :
  let E := example_env example_feed endpoint_down in
  send_telegram_message E example_report first_run
  = (Raise UnboundLocalError, {| marker := None; posts := [example_report] |})
  /\ example_main E first_run
     = (Raise UnboundLocalError,
        {| marker := None; posts := [example_report] |}).
Proof. intros E; split; vm_compute; reflexivity. Qed.

(** ** Instances *)

Lemma merge_slots_partition_witness :
  let slots := repeat false 3 ++ repeat true 45 in
  length slots = 48%nat
  /\ exists ivs : list interval,
      merge_slots slots = map period_of ivs
      /\ tiles slots 0 48 ivs
      /\ alternating (map powered ivs)
      /\ alternating (map is_on (merge_slots slots))
      /\ fsum (map hours (merge_slots slots)) = float_24
      /\ float_value float_24 == 24.
Proof.
  intros slots; split; [reflexivity|].
  apply (merge_slots_partition slots); reflexivity.
Defined.

Lemma format_hours_agreement_witness :
  (is_finite float_2_5 = true
   /\ (forall n, ~ float_value float_2_5 == inject_Z n)
   /\ format_hours repr_halves (PyFloat float_2_5) = Ok (u "2.5 години"))
  /\ (is_finite (float_of_int 21) = true
      /\ float_value (float_of_int 21) == inject_Z 21
      /\ format_hours repr_halves (PyFloat (float_of_int 21))
         = Ok (u "21 година")).
Proof.
  destruct (format_hours_agreement repr_halves) as (Hfrac & Hint & _).
  assert (Hhalf : forall n, ~ float_value float_2_5 == inject_Z n).
  { intros n H.
    assert (Hv : float_value float_2_5 == 5 # 2) by (vm_compute; reflexivity).
    pose proof (Qeq_trans _ _ _ (Qeq_sym _ _ Hv) H) as H'.
    unfold Qeq, inject_Z in H'; cbn [Qnum Qden] in H'; lia. }
  assert (H21 : float_value (float_of_int 21) == inject_Z 21)
    by (vm_compute; reflexivity).
  assert (Hfin : is_finite float_2_5 = true) by (vm_compute; reflexivity).
  assert (Hfin21 : is_finite (float_of_int 21) = true)
    by (vm_compute; reflexivity).
  split; (split; [assumption|]).
  - split; [exact Hhalf|].
    rewrite (Hfrac float_2_5 Hfin Hhalf); vm_compute; reflexivity.
  - split; [exact H21|].
    rewrite (Hint (float_of_int 21) 21 Hfin21 H21); vm_compute; reflexivity.
Defined.

Lemma hour_1_off_schedule_witness :
  let date := {| weekday := 1; day := 14; month := 11 |} in
  0 <= weekday date <= 6
  /\ build_schedule day_hour_1_off
     = [ {| start := u "00:00"; end_ := u "01:00"; is_on := false;
            hours := float_of_int 1 |};
         {| start := u "01:00"; end_ := u "24:00"; is_on := true;
            hours := float_of_int 23 |} ]
  /\ exists header : pystr,
      format_schedule_message repr_halves (build_schedule day_hour_1_off)
        date (u "GPV12.1") true
      = Ok (join [10]
              [ header;
                u "🪫00:00 - 01:00 (1 година)";
                u "🔋01:00 - 24:00 (23 години)";
                [];
                u "Світло є 23 години";
                u "Світла нема 1 година" ]).
Proof.
  intros date; split; [simpl; lia|].
  apply (hour_1_off_schedule repr_halves date (u "GPV12.1") true); simpl; lia.
Defined.

Lemma no_equals_sign (l : pystr) :
  forallb (fun c => negb (c =? 61)) l = true -> ~ In 61 l.
Proof.
  intros H Hin; rewrite forallb_forall in H.
  specialize (H 61 Hin); discriminate.
Qed.

Lemma message_parts_chunks_witness :
  let g1 := nth 0 busy_sections [] in
  let g2 := nth 1 busy_sections [] in
  let message := g1 ++ group_separator ++ g2 in
  (format_full_message repr_halves int_of_digits utc_fromtimestamp
     example_feed_busy = Ok (Some message)
   /\ 4000 < Z.of_nat (length message)
   /\ (forall a b, message = a ++ group_separator ++ b -> a = g1 /\ b = g2))
  /\ message_parts message = [g1; g2]
  /\ ~ occurs group_separator g1 /\ ~ occurs group_separator g2.
Proof.
  intros g1 g2 message.
  assert (Hreport : format_full_message repr_halves int_of_digits
                      utc_fromtimestamp example_feed_busy = Ok (Some message))
    by (vm_compute; reflexivity).
  assert (Hlen : 4000 < Z.of_nat (length message)) by (vm_compute; reflexivity).
  assert (Honce : forall a b,
             message = a ++ group_separator ++ b -> a = g1 /\ b = g2).
  { apply group_separator_once; apply no_equals_sign; vm_compute; reflexivity. }
  split; [split; [exact Hreport | split; [exact Hlen | exact Honce]]|].
  destruct (message_parts_chunks message) as (_ & _ & Htwo & _).
  exact (Htwo g1 g2 eq_refl Honce Hlen).
Defined.

(* ================================================================= *)
(** * Further properties of the program *)

(** ** The run as a whole *)

Section Run.

Variable float_repr : float -> pystr.
Variable int_of_str : pystr -> result Z.
Variable fromtimestamp : Z -> result datetime.

(** [main], path by path. *)
Lemma main_cases (E : env) (w : world) :
  main float_repr int_of_str fromtimestamp E w =
    if negb (truthy (fetch_data E)) then (Ok tt, w)
    else
      match content_hash_of (fetch_data E) with
      | Raise e => (Raise e, w)
      | Ok content_hash =>
          if hash_eq content_hash (cached_hash_of w) then (Ok tt, w)
          else
            match slice_16 content_hash with
            | Raise e => (Raise e, w)
            | Ok _ =>
                match format_full_message float_repr int_of_str fromtimestamp
                        (fetch_data E) with
                | Raise e => (Raise e, w)
                | Ok None | Ok (Some []) => (Ok tt, w)
                | Ok (Some (c :: text)) =>
                    match send_telegram_message E (c :: text) w with
                    | (Ok true, w1) => save_hash E content_hash w1
                    | (Ok false, w1) => (Ok tt, w1)
                    | (Raise e, w1) => (Raise e, w1)
                    end
                end
            end
      end.
Proof.
  unfold main.
  destruct (negb (truthy (fetch_data E))); [reflexivity|].
  cbv [io_bind io_lift io_ret get_cached_hash].
  destruct (content_hash_of (fetch_data E)) as [content_hash|e];
    [|reflexivity].
  destruct (hash_eq content_hash (cached_hash_of w)); [reflexivity|].
  destruct (slice_16 content_hash) as [sl|e]; [|reflexivity].
  destruct (format_full_message float_repr int_of_str fromtimestamp
              (fetch_data E)) as [[[|c text]|]|e]; try reflexivity.
  cbv [str_truthy negb].
  destruct (send_telegram_message E (c :: text) w) as [[[|]|e] w1];
    reflexivity.
Qed.


End Run.

Lemma fact_data_truthy (data : json) (fact_data : pydict) :
  fact_data_of data = Ok (JDict fact_data) -> fact_data <> [] ->
  truthy data = true.
Proof.
  intros Hfact Hne; unfold fact_data_of, json_get in Hfact.
  destruct data as [| | | | | |d]; try discriminate.
  destruct d; [|reflexivity].
  simpl in Hfact; injection Hfact as <-; congruence.
Qed.

Lemma mapM_raise {A B} (f : A -> result B) (l : list A) (a : A) (e : exn) :
  In a l -> f a = Raise e -> exists e', mapM f l = Raise e'.
Proof.
  induction l as [|x l IH]; intros Hin Hf; [contradiction|]; simpl.
  destruct (f x) as [b|e0] eqn:Hx; [|exists e0; reflexivity].
  destruct Hin as [-> | Hin]; [congruence|].
  destruct (IH Hin Hf) as [e' ->]; exists e'; reflexivity.
Qed.

Lemma hash_eq_read (h x : pystr) :
  hash_eq (JStr h) (Some x) = true <-> x = h.
Proof. simpl; rewrite pystr_eqb_eq; split; congruence. Qed.

Lemma universal_newlines_no_cr_upto (n : nat) (s : pystr) :
  (length s <= n)%nat -> ~ In 13 (universal_newlines s).
Proof.
  revert s; induction n as [|n IH]; intros s Hlen.
  - destruct s; [intros [] | simpl in Hlen; lia].
  - destruct s as [|c r]; [intros []|].
    simpl in Hlen; simpl.
    destruct (Z.eqb_spec c 13) as [-> | Hc].
    + destruct r as [|d r']; [intros [H | []]; discriminate|].
      simpl in Hlen.
      destruct (d =? 10); intros [H | H]; try discriminate;
        revert H; apply IH; simpl; lia.
    + intros [H | H]; [congruence|].
      revert H; apply IH; lia.
Qed.

Lemma universal_newlines_no_cr (s : pystr) : ~ In 13 (universal_newlines s).
Proof. apply (universal_newlines_no_cr_upto (length s)); lia. Qed.

Lemma lstrip_incl (c : Z) (s : pystr) : In c (lstrip s) -> In c s.
Proof.
  induction s as [|x s IH]; simpl; [auto|].
  destruct (is_space x); [right; apply IH; assumption | auto].
Qed.

Lemma strip_incl (c : Z) (s : pystr) : In c (strip s) -> In c s.
Proof.
  unfold strip; intros H.
  apply in_rev, lstrip_incl, in_rev in H.
  apply lstrip_incl, H.
Qed.

(** What was written without a carriage return is read back as it was. *)
Lemma read_back_written (sep h : pystr) :
  sep = [10] \/ sep = [13; 10] -> ~ In 13 h ->
  universal_newlines (write_newlines sep h) = h.
Proof.
  intros Hsep; induction h as [|c h IH]; intros Hcr; [reflexivity|].
  assert (Hc : c <> 13) by (intros ->; apply Hcr; left; reflexivity).
  assert (Hrest : ~ In 13 h) by (intros H; apply Hcr; right; exact H).
  unfold write_newlines in *; cbn [flat_map].
  destruct (Z.eqb_spec c 10) as [-> | Hnl].
  - destruct Hsep as [-> | ->]; simpl; rewrite IH by exact Hrest;
      reflexivity.
  - simpl; destruct (Z.eqb_spec c 13); [congruence|].
    rewrite IH by exact Hrest; reflexivity.
Qed.

Section RunEdges.

Variable float_repr : float -> pystr.
Variable int_of_str : pystr -> result Z.
Variable fromtimestamp : Z -> result datetime.

(** Without a bot token or a channel id (unset or empty),
    [send_telegram_message] returns [False] without any request, and a run
    neither posts nor writes the marker file, whatever the feed holds. *)
Theorem no_credentials_no_effect (E : env) (w : world) :
  str_truthy (TELEGRAM_BOT_TOKEN E) = false
  \/ str_truthy (TELEGRAM_CHANNEL_ID E) = false ->
  (forall message, send_telegram_message E message w = (Ok false, w))
  /\ snd (main float_repr int_of_str fromtimestamp E w) = w.
Proof.
  intros Hcred.
  assert (Hsend : forall message,
             send_telegram_message E message w = (Ok false, w)).
  { intros message; unfold send_telegram_message.
    destruct Hcred as [-> | ->]; simpl; [|rewrite orb_true_r]; reflexivity. }
  split; [exact Hsend|].
  rewrite main_cases.
  destruct (negb (truthy (fetch_data E))); [reflexivity|].
  destruct (content_hash_of (fetch_data E)) as [content_hash|e];
    [|reflexivity].
  destruct (hash_eq content_hash (cached_hash_of w)); [reflexivity|].
  destruct (slice_16 content_hash) as [sl|e]; [|reflexivity].
  destruct (format_full_message float_repr int_of_str fromtimestamp
              (fetch_data E)) as [[[|c text]|]|e]; try reflexivity.
  rewrite Hsend; reflexivity.
Qed.

(** A feed document without the key "fact", or whose "fact" has no key
    "data", gives no report ([None]); the run ends without a request and
    without touching the marker file, whether or not the hash is new. *)
Theorem no_fact_data_no_report (E : env) (w : world) (d : pydict) (h : pystr) :
  feed E = Some (JDict d) ->
  content_hash_of (JDict d) = Ok (JStr h) ->
  dict_lookup d s_fact = None
  \/ (exists f, dict_lookup d s_fact = Some (JDict f)
                /\ dict_lookup f s_data = None) ->
  format_full_message float_repr int_of_str fromtimestamp (JDict d) = Ok None
  /\ main float_repr int_of_str fromtimestamp E w = (Ok tt, w).
Proof.
  intros Hfeed Hhash Hmissing.
  assert (Hfact : fact_data_of (JDict d) = Ok (JDict [])).
  { unfold fact_data_of, json_get, dict_get.
    destruct Hmissing as [-> | (f & -> & Hdata)]; cbn [rbind].
    - reflexivity.
    - rewrite Hdata; reflexivity. }
  assert (Hreport :
    format_full_message float_repr int_of_str fromtimestamp (JDict d)
    = Ok None).
  { unfold format_full_message; rewrite Hfact; reflexivity. }
  split; [exact Hreport|].
  rewrite main_cases; unfold fetch_data; rewrite Hfeed, Hhash, Hreport.
  destruct (negb (truthy (JDict d))); [reflexivity|].
  destruct (hash_eq (JStr h) (cached_hash_of w)); reflexivity.
Qed.

(** A key of [fact.data] that [int] rejects makes [format_full_message]
    raise; the exception leaves [main], before any request and with the
    marker file as it was. *)
Theorem bad_timestamp_key_raises (E : env) (w : world) (data : json)
    (fact_data : pydict) (k : pystr) (e : exn) (h : pystr) :
  feed E = Some data ->
  content_hash_of data = Ok (JStr h) ->
  hash_eq (JStr h) (cached_hash_of w) = false ->
  fact_data_of data = Ok (JDict fact_data) ->
  In k (map fst fact_data) ->
  int_of_str k = Raise e ->
  exists e',
    format_full_message float_repr int_of_str fromtimestamp data = Raise e'
    /\ main float_repr int_of_str fromtimestamp E w = (Raise e', w).
Proof.
  intros Hfeed Hhash Hdiff Hfact Hin Hk.
  assert (Hne : fact_data <> []) by (intros ->; contradiction).
  destruct (mapM_raise (fun x => (z <- int_of_str x ;; Ok (z, x))%result)
              (map fst fact_data) k e Hin) as [e' Hraise].
  { rewrite Hk; reflexivity. }
  exists e'.
  assert (Hreport :
    format_full_message float_repr int_of_str fromtimestamp data = Raise e').
  { unfold format_full_message; rewrite Hfact; cbn [rbind].
    destruct fact_data as [|kv fact_data']; [congruence|].
    cbn [truthy negb json_keys rbind].
    unfold sorted_by_int; rewrite Hraise; reflexivity. }
  split; [exact Hreport|].
  rewrite main_cases; unfold fetch_data; rewrite Hfeed.
  rewrite (fact_data_truthy data fact_data Hfact Hne), Hhash, Hdiff, Hreport.
  reflexivity.
Qed.

(** After a run that delivered the report and stored the hash [h], a second
    run on the same feed is a no-op exactly when [h] has no surrounding
    whitespace and no carriage return: the hash is written as it is but read
    back with line endings translated and stripped, so any other hash is
    taken for a new one and the report is handed to [send_telegram_message]
    again. *)
Theorem rerun_after_delivery (E E' : env) (w w1 : world) (data : json)
    (h text : pystr) :
  feed E = Some data -> feed E' = Some data ->
  content_hash_of data = Ok (JStr h) ->
  hash_eq (JStr h) (cached_hash_of w) = false ->
  format_full_message float_repr int_of_str fromtimestamp data
  = Ok (Some text) ->
  text <> [] ->
  forallb (file_encodable E) h = true ->
  linesep E = [10] \/ linesep E = [13; 10] ->
  send_telegram_message E text w = (Ok true, w1) ->
  let w2 := snd (main float_repr int_of_str fromtimestamp E w) in
  marker w2 = Some (write_newlines (linesep E) h)
  /\ (strip h = h -> ~ In 13 h ->
      main float_repr int_of_str fromtimestamp E' w2 = (Ok tt, w2))
  /\ (strip h <> h \/ In 13 h ->
      posts (snd (main float_repr int_of_str fromtimestamp E' w2))
      = posts (snd (send_telegram_message E' text w2))).
Proof.
  intros Hfeed Hfeed' Hhash Hdiff Hreport Htext Henc Hsep Hsend w2.
  pose proof (report_some_truthy float_repr int_of_str fromtimestamp
                data text Hreport) as Htruthy.
  destruct text as [|c text]; [congruence|].
  assert (Hw2 : w2 = {| marker := Some (write_newlines (linesep E) h);
                        posts := posts w1 |}).
  { unfold w2.
    rewrite (main_fetched float_repr int_of_str fromtimestamp E w data h
               Hfeed Htruthy Hhash), Hdiff, Hreport, Hsend.
    unfold save_hash; rewrite Henc; reflexivity. }
  rewrite Hw2.
  split; [reflexivity|].
  rewrite (main_fetched float_repr int_of_str fromtimestamp E' _ data h
             Hfeed' Htruthy Hhash), Hreport.
  unfold cached_hash_of; cbn [marker].
  split.
  - intros Hclean Hcr.
    rewrite (read_back_written _ _ Hsep Hcr).
    rewrite (proj2 (hash_eq_read h (strip h)) Hclean); reflexivity.
  - intros Hother.
    destruct (hash_eq (JStr h)
                (Some (strip (universal_newlines
                                (write_newlines (linesep E) h))))) eqn:Hq.
    + exfalso; apply hash_eq_read in Hq.
      destruct (in_dec Z.eq_dec 13 h) as [Hcr | Hcr].
      * apply (universal_newlines_no_cr (write_newlines (linesep E) h)).
        apply strip_incl; rewrite Hq; exact Hcr.
      * rewrite (read_back_written _ _ Hsep Hcr) in Hq.
        destruct Hother as [Hspace | Hin]; [exact (Hspace Hq) | exact (Hcr Hin)].
    + destruct (send_telegram_message E' (c :: text)
                  {| marker := Some (write_newlines (linesep E) h);
                     posts := posts w1 |})
        as [[[|]|e] w3]; try reflexivity.
      unfold save_hash; destruct (forallb (file_encodable E') h); reflexivity.
Qed.

End RunEdges.

(** ** Delivery *)

Lemma send_parts_trace (E : env) (parts : list pystr) (bound : bool)
    (w : world) :
  exists k,
    (k <= length parts)%nat
    /\ posts (snd (send_parts E parts bound w)) = posts w ++ firstn k parts
    /\ (forall i, (S i < k)%nat ->
          transport E (length (posts w) + i) (nth i parts [])
          = Responded true)
    /\ (fst (send_parts E parts bound w) = Ok true ->
        k = length parts
        /\ forall i, (i < k)%nat ->
             transport E (length (posts w) + i) (nth i parts [])
             = Responded true)
    /\ (fst (send_parts E parts bound w) <> Ok true ->
        exists j, k = S j
          /\ transport E (length (posts w) + j) (nth j parts [])
             <> Responded true).
Proof.
  revert bound w; induction parts as [|part rest IH]; intros bound w.
  - exists 0%nat; simpl; rewrite app_nil_r.
    repeat split; try lia; try (intros; lia).
    intros H; congruence.
  - simpl send_parts.
    destruct (transport E (length (posts w)) part) as [|[|]] eqn:Ho.
    + exists 1%nat; simpl firstn; simpl length.
      split; [lia|].
      split; [destruct bound; reflexivity|].
      split; [intros i Hi; lia|].
      split; [destruct bound; simpl; discriminate|].
      intros _; exists 0%nat; rewrite Nat.add_0_r; simpl nth.
      split; [reflexivity | rewrite Ho; discriminate].
    + set (w' := {| marker := marker w; posts := posts w ++ [part] |}).
      destruct (IH true w') as (k & Hk & Hposts & Hmid & Htrue & Hfalse).
      assert (Hlen : length (posts w') = S (length (posts w))).
      { unfold w'; simpl; rewrite length_app; simpl; lia. }
      assert (Hshift : forall i,
                transport E (length (posts w) + S i) (nth (S i) (part :: rest) [])
                = transport E (length (posts w') + i) (nth i rest [])).
      { intros i; rewrite Hlen; simpl nth; f_equal; lia. }
      exists (S k); simpl length; simpl firstn.
      split; [lia|].
      split; [rewrite Hposts; unfold w'; simpl; rewrite <- app_assoc;
              reflexivity|].
      split.
      { intros [|i] Hi; [rewrite Nat.add_0_r; exact Ho|].
        rewrite Hshift; apply Hmid; lia. }
      split.
      { intros Hr; destruct (Htrue Hr) as [-> Hall].
        split; [reflexivity|].
        intros [|i] Hi; [rewrite Nat.add_0_r; exact Ho|].
        rewrite Hshift; apply Hall; lia. }
      intros Hr; destruct (Hfalse Hr) as (j & -> & Hj).
      exists (S j); split; [reflexivity|].
      rewrite Hshift; exact Hj.
    + exists 1%nat; simpl firstn; simpl length.
      split; [lia|].
      split; [reflexivity|].
      split; [intros i Hi; lia|].
      split; [simpl; discriminate|].
      intros _; exists 0%nat; rewrite Nat.add_0_r; simpl nth.
      split; [reflexivity | rewrite Ho; discriminate].
Qed.

(** With credentials configured, the requests of one call are the parts of
    the message in order, up to and including the first one that is not
    answered with a good status; nothing is sent after it. The call returns
    [True] exactly when every part was sent and answered with a good
    status. The marker file is not touched. *)
Theorem delivery_stops_at_first_failure (E : env) (message : pystr)
    (w : world) :
  str_truthy (TELEGRAM_BOT_TOKEN E) = true ->
  str_truthy (TELEGRAM_CHANNEL_ID E) = true ->
  let parts := message_parts message in
  let r := fst (send_telegram_message E message w) in
  let w' := snd (send_telegram_message E message w) in
  marker w' = marker w
  /\ exists k,
      (k <= length parts)%nat
      /\ posts w' = posts w ++ firstn k parts
      /\ (forall i, (S i < k)%nat ->
            transport E (length (posts w) + i) (nth i parts [])
            = Responded true)
      /\ (r = Ok true ->
          k = length parts
          /\ forall i, (i < k)%nat ->
               transport E (length (posts w) + i) (nth i parts [])
               = Responded true)
      /\ (r <> Ok true ->
          exists j, k = S j
            /\ transport E (length (posts w) + j) (nth j parts [])
               <> Responded true).
Proof.
  intros Htoken Hchannel parts r w'.
  split; [apply send_telegram_message_marker|].
  unfold r, w', send_telegram_message; rewrite Htoken, Hchannel.
  cbn [negb orb]; apply send_parts_trace.
Qed.



Lemma find_sep_absent (sep s : pystr) :
  ~ occurs sep s -> find_sep sep s = None.
Proof.
  intros Hno; destruct (find_sep sep s) as [[b r]|] eqn:F; [|reflexivity].
  exfalso; apply Hno; exists b, r; apply find_sep_some, F.
Qed.

(** A text in which the group separator does not occur (a report of one
    group) is sent as a single request, also when it is longer than 4000
    characters: the length limit is not enforced on a part. *)
Theorem message_without_separator_one_part (message : pystr) :
  ~ occurs group_separator message ->
  message_parts message = [message].
Proof.
  intros Hno; unfold message_parts, split.
  destruct (_ <=? _); [reflexivity|].
  destruct (length message); simpl; [reflexivity|].
  rewrite (find_sep_absent _ _ Hno); reflexivity.
Qed.

(** ** The schedule *)

Lemma format_slot_time_injective_check :
  forallb (fun s =>
    forallb (fun t =>
      if pystr_eqb (format_slot_time s) (format_slot_time t)
      then s =? t else true) (range 0 49)) (range 0 49) = true.
Proof. vm_compute; reflexivity. Qed.

(** On the slot boundaries 0..48 the rendered time tells the boundary:
    different boundaries are rendered differently. *)
Theorem format_slot_time_injective (s t : Z) :
  0 <= s <= 48 -> 0 <= t <= 48 ->
  format_slot_time s = format_slot_time t -> s = t.
Proof.
  intros Hs Ht Heq.
  pose proof (range_forallb 0 49 _ format_slot_time_injective_check s
                ltac:(lia)) as H.
  cbv beta in H.
  pose proof (range_forallb 0 49 _ H t ltac:(lia)) as H'.
  cbv beta in H'.
  rewrite Heq, pystr_eqb_refl in H'; apply Z.eqb_eq, H'.
Qed.

Lemma format_slot_time_injective_witness :
  (0 <= 47 <= 48 /\ 0 <= 47 <= 48
   /\ format_slot_time 47 = format_slot_time 47)
  /\ 47 = 47.
Proof.
  split; [repeat split; lia|].
  apply (format_slot_time_injective 47 47); [lia | lia | reflexivity].
Defined.

Lemma range_In_inv (lo hi x : Z) : In x (range lo hi) -> lo <= x < hi.
Proof.
  unfold range; intros H; apply in_map_iff in H.
  destruct H as (k & <- & Hk); apply in_seq in Hk; lia.
Qed.

Lemma flat_map_ext_in {A B} (f g : A -> list B) (l : list A) :
  (forall a, In a l -> f a = g a) -> flat_map f l = flat_map g l.
Proof.
  induction l as [|x l IH]; intros H; simpl; [reflexivity|].
  rewrite (H x (or_introl eq_refl)), IH; [reflexivity|].
  intros a Ha; apply H; right; exact Ha.
Qed.

(** [build_schedule] reads the keys "1" to "24" only: two mappings that
    agree on these keys (whatever else they hold) give the same schedule. *)
Theorem build_schedule_reads_hours_only (d1 d2 : pydict) :
  (forall hour, 1 <= hour <= 24 ->
     dict_lookup d1 (str_of_int hour) = dict_lookup d2 (str_of_int hour)) ->
  build_schedule d1 = build_schedule d2.
Proof.
  intros Hagree; unfold build_schedule; f_equal.
  rewrite !encode_slots_flat; apply flat_map_ext_in.
  intros hour Hin; apply range_In_inv in Hin.
  unfold status_of, dict_get; rewrite (Hagree hour) by lia; reflexivity.
Qed.

(** A day on which every hour reads as powered in both halves (codes "yes",
    the "maybe" codes, unknown codes, missing hours; the empty mapping among
    them) is one period 00:00-24:00, on, of 24.0 hours. *)
Theorem all_on_day_single_period (day_data : pydict) :
  (forall hour, 1 <= hour <= 24 ->
     interpret (dict_get day_data (str_of_int hour) (JStr s_yes))
     = (true, true)) ->
  build_schedule day_data
  = [ {| start := u "00:00"; end_ := u "24:00"; is_on := true;
         hours := float_24 |} ].
Proof.
  intros Hon; unfold build_schedule.
  assert (Hslots : encode_slots day_data = repeat true 48).
  { rewrite encode_slots_flat.
    rewrite (flat_map_ext_in _ (fun _ => [true; true])).
    - vm_compute; reflexivity.
    - intros hour Hin; apply range_In_inv in Hin.
      unfold status_of; rewrite (Hon hour) by lia; reflexivity. }
  rewrite Hslots; vm_compute; reflexivity.
Qed.

Lemma tiles_expand (slots : list bool) (a c : Z) (ivs : list interval) :
  tiles slots a c ivs -> 0 <= a ->
  length (expand ivs) = Z.to_nat (c - a)
  /\ forall j, a <= j < c ->
       nth (Z.to_nat (j - a)) (expand ivs) true = slot_at slots j.
Proof.
  induction 1 as [a | a b c v ivs Hab Hv Ht IH]; intros Ha.
  - split; [simpl; lia | intros j Hj; lia].
  - pose proof (tiles_le _ _ _ _ Ht) as Hbc.
    destruct IH as [IHlen IHnth]; [lia|].
    unfold expand in *; cbn [flat_map powered hi lo].
    split.
    + rewrite length_app, repeat_length, IHlen; lia.
    + intros j Hj; destruct (Z_lt_ge_dec j b) as [Hlt | Hge].
      * rewrite app_nth1 by (rewrite repeat_length; lia).
        rewrite nth_repeat_lt by lia.
        symmetry; apply Hv; lia.
      * rewrite app_nth2 by (rewrite repeat_length; lia).
        rewrite repeat_length.
        replace (Z.to_nat (j - a) - Z.to_nat (b - a))%nat
          with (Z.to_nat (j - b)) by lia.
        apply IHnth; lia.
Qed.

(** Run-length round trip: expanding the intervals of the merge phase gives
    the slot sequence back. *)
Theorem merge_slots_expand (slots : list bool) :
  (1 <= length slots <= 48)%nat ->
  exists ivs : list interval,
    merge_slots slots = map period_of ivs /\ expand ivs = slots.
Proof.
  intros Hlen.
  destruct (merge_slots_tiles slots Hlen) as [ivs (Hm & Ht & _ & _)].
  exists ivs; split; [exact Hm|].
  destruct (tiles_expand _ _ _ _ Ht) as [Hl Hn]; [lia|].
  apply (nth_ext _ _ true true); [rewrite Hl; lia|].
  intros n Hn'; rewrite Hl in Hn'.
  specialize (Hn (Z.of_nat n) ltac:(lia)).
  replace (Z.to_nat (Z.of_nat n - 0)) with n in Hn by lia.
  rewrite Hn; unfold slot_at; rewrite Nat2Z.id; reflexivity.
Qed.

Lemma merge_slots_expand_witness :
  let slots := [true; false; false; true; true; true; false] in
  (1 <= length slots <= 48)%nat
  /\ exists ivs : list interval,
      merge_slots slots = map period_of ivs /\ expand ivs = slots.
Proof.
  intros slots; split; [simpl; lia|].
  apply (merge_slots_expand slots); simpl; lia.
Defined.

Lemma tiles_count (slots : list bool) (a c : Z) (ivs : list interval) :
  tiles slots a c ivs ->
  Z.of_nat (length ivs) <= c - a
  /\ Forall (fun iv => a <= lo iv /\ lo iv < hi iv /\ hi iv <= c) ivs.
Proof.
  induction 1 as [a | a b c v ivs Hab Hv Ht [IHlen IHall]].
  - split; [simpl; lia | constructor].
  - pose proof (tiles_le _ _ _ _ Ht) as Hbc.
    split; [simpl length; lia|].
    constructor; [simpl; lia|].
    eapply Forall_impl; [|exact IHall].
    intros iv (H1 & H2 & H3); lia.
Qed.

Lemma half_hours_value_check :
  forallb (fun k => Qeq_bool (float_value (half_hours k)) (inject_Z k / 2))
          (range 0 49) = true.
Proof. vm_compute; reflexivity. Qed.

Lemma half_hours_value (k : Z) :
  0 <= k <= 48 -> float_value (half_hours k) == inject_Z k / 2.
Proof.
  intros Hk; apply Qeq_bool_iff.
  apply (range_forallb 0 49 _ half_hours_value_check); lia.
Qed.

(** For every mapping, [build_schedule] returns between 1 and 48 periods,
    and each period lasts a whole number [k] of half hours, 1 <= k <= 48:
    its [hours] field is the float [k * 0.5], of value [k / 2]. *)
Theorem build_schedule_bounds (day_data : pydict) :
  (1 <= length (build_schedule day_data) <= 48)%nat
  /\ Forall (fun p =>
       exists k, 1 <= k <= 48
         /\ hours p = half_hours k
         /\ float_value (hours p) == inject_Z k / 2)
       (build_schedule day_data).
Proof.
  pose proof (encode_slots_length day_data) as Hlen.
  destruct (merge_slots_tiles (encode_slots day_data))
    as [ivs (Hm & Ht & _ & _)]; [lia|].
  rewrite Hlen in Ht; change (Z.of_nat 48) with 48 in Ht.
  fold (build_schedule day_data) in Hm.
  destruct (tiles_count _ _ _ _ Ht) as [Hcount Hall].
  destruct (tiles_first _ _ _ _ Ht) as (b & v & rest & Hfirst); [lia|].
  rewrite Hm, length_map; split.
  - split; [rewrite Hfirst; simpl; lia | lia].
  - apply Forall_map; eapply Forall_impl; [|exact Hall].
    intros iv (H1 & H2 & H3).
    exists (hi iv - lo iv); split; [lia|].
    split; [reflexivity|].
    apply half_hours_value; lia.
Qed.

(** ** Rendering a schedule *)

Lemma half_hours_finite_check :
  forallb (fun k => is_finite (half_hours k)) (range 0 49) = true.
Proof. vm_compute; reflexivity. Qed.




Section Summary.

Variable float_repr : float -> pystr.

(** The duration phrase for [k] half hours. *)
Definition duration_text (k : Z) : pystr :=
  if Z.even k
  then str_of_int (k / 2) ++ word_of (plural_form_of_int (k / 2))
  else float_repr (half_hours k) ++ word_few.

Lemma format_hours_duration (k : Z) :
  0 <= k <= 48 ->
  format_hours float_repr (PyFloat (half_hours k)) = Ok (duration_text k).
Proof.
  intros Hk; unfold duration_text.
  assert (Hfin : is_finite (half_hours k) = true)
    by (apply (range_forallb 0 49 _ half_hours_finite_check); lia).
  pose proof (half_hours_value k Hk) as Hval.
  destruct (Z.even k) eqn:Heven.
  - apply format_hours_integral; [exact Hfin|].
    rewrite Hval.
    apply Z.even_spec in Heven; destruct Heven as [m ->].
    rewrite Z.mul_comm, Z.div_mul by lia.
    rewrite inject_Z_mult; field.
  - apply format_hours_fractional; [exact Hfin|].
    intros n Hn; rewrite Hval in Hn.
    assert (Hk2 : k = 2 * n).
    { apply (proj1 (inject_Z_injective _ _)).
      rewrite inject_Z_mult, <- Hn; field. }
    rewrite Hk2, Z.even_mul in Heven; discriminate.
Qed.

(** On the durations of a schedule [format_hours] never raises: a whole
    number of hours is printed as an integer with its agreeing form, a
    number of hours and a half with the float's [repr] and "години". *)
Theorem format_hours_half_hours (k : Z) :
  0 <= k <= 48 ->
  format_hours float_repr (PyFloat (half_hours k))
  = Ok (if Z.even k
        then str_of_int (k / 2) ++ word_of (plural_form_of_int (k / 2))
        else float_repr (half_hours k) ++ u " години").
Proof. exact (format_hours_duration k). Qed.



End Summary.

(** ** The report *)

Lemma insert_by_key_perm (x : Z * pystr) (l : list (Z * pystr)) :
  Permutation (x :: l) (insert_by_key x l).
Proof.
  induction l as [|y l IH]; simpl; [reflexivity|].
  destruct (fst x <=? fst y); [reflexivity|].
  rewrite perm_swap; constructor; exact IH.
Qed.

Lemma insert_by_key_sorted (x : Z * pystr) (l : list (Z * pystr)) :
  StronglySorted (fun a b => fst a <= fst b) l ->
  StronglySorted (fun a b => fst a <= fst b) (insert_by_key x l).
Proof.
  induction 1 as [|y l Hs IH Hy]; simpl.
  - constructor; constructor.
  - destruct (Z.leb_spec (fst x) (fst y)) as [Hle | Hgt].
    + constructor; [constructor; assumption|].
      constructor; [exact Hle|].
      eapply Forall_impl; [|exact Hy]; intros a Ha; simpl in *; lia.
    + constructor; [exact IH|].
      apply (Permutation_Forall (insert_by_key_perm x l)).
      constructor; [lia | exact Hy].
Qed.

Lemma insertion_sort_spec (ks : list (Z * pystr)) :
  Permutation ks (fold_right insert_by_key [] ks)
  /\ StronglySorted (fun a b => fst a <= fst b)
       (fold_right insert_by_key [] ks).
Proof.
  induction ks as [|x ks [IHp IHs]]; simpl.
  - split; constructor.
  - split; [|apply insert_by_key_sorted, IHs].
    rewrite <- insert_by_key_perm; constructor; exact IHp.
Qed.

Section Report.

Variable float_repr : float -> pystr.
Variable int_of_str : pystr -> result Z.
Variable fromtimestamp : Z -> result datetime.

Lemma keyed_spec (keys : list pystr) (ks : list (Z * pystr)) :
  mapM (fun x => (z <- int_of_str x ;; Ok (z, x))%result) keys = Ok ks ->
  map snd ks = keys /\ Forall (fun p => int_of_str (snd p) = Ok (fst p)) ks.
Proof.
  revert ks; induction keys as [|k keys IH]; intros ks; simpl.
  - intros [= <-]; split; constructor.
  - destruct (int_of_str k) as [z|e] eqn:Hk; [|discriminate]; cbn [rbind].
    destruct (mapM _ keys) as [ks'|e]; [|discriminate]; cbn [rbind].
    intros [= <-]; destruct (IH ks' eq_refl) as [Hkeys Hall].
    split; [simpl; rewrite Hkeys; reflexivity|].
    constructor; [exact Hk | exact Hall].
Qed.

Lemma mapM_keys (ks : list (Z * pystr)) :
  Forall (fun p => int_of_str (snd p) = Ok (fst p)) ks ->
  mapM int_of_str (map snd ks) = Ok (map fst ks).
Proof.
  induction 1 as [|p ks Hp Hall IH]; simpl; [reflexivity|].
  rewrite Hp, IH; reflexivity.
Qed.

(** The days are taken in ascending numeric order of their timestamp keys
    (so "9" comes before "10"): the sorted list is a rearrangement of the
    keys whose integer values ascend. *)
Theorem sorted_days_ascending (keys days : list pystr) :
  sorted_by_int int_of_str keys = Ok days ->
  Permutation keys days
  /\ exists values,
      mapM int_of_str days = Ok values /\ StronglySorted Z.le values.
Proof.
  unfold sorted_by_int.
  destruct (mapM _ keys) as [ks|e] eqn:Hks; [|discriminate]; cbn [rbind].
  intros [= <-].
  destruct (keyed_spec keys ks Hks) as [Hkeys Hall].
  destruct (insertion_sort_spec ks) as [Hperm Hsorted].
  split.
  - rewrite <- Hkeys; apply Permutation_map, Hperm.
  - exists (map fst (fold_right insert_by_key [] ks)); split.
    + apply mapM_keys, (Permutation_Forall Hperm), Hall.
    + clear - Hsorted.
      induction Hsorted as [|p l Hs IH Hp]; simpl; constructor;
        [exact IH | apply Forall_map; exact Hp].
Qed.

Lemma group_days_ext (fd1 fd2 : pydict) (group : pystr) (days : list pystr)
    (idx : Z) (acc : list pystr) :
  (forall day_ts, In day_ts days ->
     dict_lookup fd1 day_ts = dict_lookup fd2 day_ts) ->
  group_days float_repr int_of_str fromtimestamp (JDict fd1) group idx days acc
  = group_days float_repr int_of_str fromtimestamp (JDict fd2) group idx days
      acc.
Proof.
  revert idx acc; induction days as [|day_ts rest IH]; intros idx acc Hagree;
    [reflexivity|].
  cbn [group_days]; unfold group_day_data, json_item.
  rewrite (Hagree day_ts (or_introl eq_refl)).
  assert (Hrest : forall d, In d rest -> dict_lookup fd1 d = dict_lookup fd2 d)
    by (intros d Hd; apply Hagree; right; exact Hd).
  destruct (dict_lookup fd2 day_ts) as [day|]; cbn [rbind]; [|reflexivity].
  destruct (json_get day group JNull) as [day_data|e]; cbn [rbind];
    [|reflexivity].
  destruct (negb (truthy day_data)); [apply IH, Hrest|].
  destruct (int_of_str day_ts) as [ts|e]; cbn [rbind]; [|reflexivity].
  destruct (fromtimestamp ts) as [date|e]; cbn [rbind]; [|reflexivity].
  destruct day_data as [| | | | | |d]; cbn [rbind]; try reflexivity.
  destruct (format_schedule_message float_repr (build_schedule d) date group
              (idx =? 0)) as [message|e]; cbn [rbind]; [|reflexivity].
  apply IH, Hrest.
Qed.

Lemma all_groups_ext (fd1 fd2 : pydict) (days1 days2 gs : list pystr)
    (acc : list pystr) :
  firstn 2 days1 = firstn 2 days2 ->
  (forall day_ts, In day_ts (firstn 2 days1) ->
     dict_lookup fd1 day_ts = dict_lookup fd2 day_ts) ->
  all_groups float_repr int_of_str fromtimestamp (JDict fd1) days1 gs acc
  = all_groups float_repr int_of_str fromtimestamp (JDict fd2) days2 gs acc.
Proof.
  intros Hdays Hagree; revert acc; induction gs as [|group rest IH];
    intros acc; [reflexivity|].
  cbn [all_groups]; rewrite <- Hdays.
  rewrite (group_days_ext fd1 fd2 group (firstn 2 days1) 0 [] Hagree).
  destruct (group_days float_repr int_of_str fromtimestamp (JDict fd2) group 0
              (firstn 2 days1) []) as [[|m msgs]|e]; cbn [rbind];
    [apply IH | apply IH | reflexivity].
Qed.

(** The report is made from the two earliest days only: two documents whose
    timestamp keys sort to the same first two days, with the same data under
    these two, give the same report (or raise the same exception), whatever
    later days they hold. *)
Theorem report_reads_two_earliest_days (data1 data2 : json)
    (fd1 fd2 : pydict) (days1 days2 : list pystr) :
  fact_data_of data1 = Ok (JDict fd1) ->
  fact_data_of data2 = Ok (JDict fd2) ->
  fd1 <> [] -> fd2 <> [] ->
  sorted_by_int int_of_str (map fst fd1) = Ok days1 ->
  sorted_by_int int_of_str (map fst fd2) = Ok days2 ->
  firstn 2 days1 = firstn 2 days2 ->
  (forall day_ts, In day_ts (firstn 2 days1) ->
     dict_lookup fd1 day_ts = dict_lookup fd2 day_ts) ->
  format_full_message float_repr int_of_str fromtimestamp data1
  = format_full_message float_repr int_of_str fromtimestamp data2.
Proof.
  intros Hf1 Hf2 Hne1 Hne2 Hs1 Hs2 Hdays Hagree.
  unfold format_full_message; rewrite Hf1, Hf2; cbn [rbind].
  destruct fd1 as [|kv1 fd1']; [congruence|].
  destruct fd2 as [|kv2 fd2']; [congruence|].
  cbn [truthy negb json_keys rbind].
  rewrite Hs1, Hs2; cbn [rbind].
  rewrite (all_groups_ext _ _ days1 days2 groups [] Hdays Hagree).
  reflexivity.
Qed.

End Report.

(** ** Instances of the further properties *)

Lemma no_credentials_no_effect_witness :
  let E := example_env_no_token example_feed in
  (str_truthy (TELEGRAM_BOT_TOKEN E) = false
   \/ str_truthy (TELEGRAM_CHANNEL_ID E) = false)
  /\ (forall message, send_telegram_message E message first_run
                      = (Ok false, first_run))
  /\ snd (example_main E first_run) = first_run.
Proof.
  intros E.
  assert (H : str_truthy (TELEGRAM_BOT_TOKEN E) = false
              \/ str_truthy (TELEGRAM_CHANNEL_ID E) = false)
    by (left; reflexivity).
  split; [exact H|].
  exact (no_credentials_no_effect repr_halves int_of_digits utc_fromtimestamp
           E first_run H).
Defined.

Lemma no_fact_data_no_report_witness :
  let E := example_env (JDict example_feed_no_fact) endpoint_ok in
  (feed E = Some (JDict example_feed_no_fact)
   /\ content_hash_of (JDict example_feed_no_fact) = Ok (JStr (u "abc"))
   /\ dict_lookup example_feed_no_fact s_fact = None)
  /\ format_full_message repr_halves int_of_digits utc_fromtimestamp
       (JDict example_feed_no_fact) = Ok None
  /\ example_main E first_run = (Ok tt, first_run).
Proof.
  intros E.
  assert (Hhash : content_hash_of (JDict example_feed_no_fact)
                  = Ok (JStr (u "abc"))) by (vm_compute; reflexivity).
  assert (Hmiss : dict_lookup example_feed_no_fact s_fact = None)
    by (vm_compute; reflexivity).
  split; [split; [reflexivity | split; assumption]|].
  exact (no_fact_data_no_report repr_halves int_of_digits utc_fromtimestamp
           E first_run example_feed_no_fact (u "abc") eq_refl Hhash
           (or_introl Hmiss)).
Defined.

Lemma bad_timestamp_key_raises_witness :
  let E := example_env example_feed_bad_key endpoint_ok in
  (feed E = Some example_feed_bad_key
   /\ content_hash_of example_feed_bad_key = Ok (JStr (u "abc"))
   /\ hash_eq (JStr (u "abc")) (cached_hash_of first_run) = false
   /\ fact_data_of example_feed_bad_key = Ok (JDict example_bad_fact_data)
   /\ In (u "today") (map fst example_bad_fact_data)
   /\ int_of_digits (u "today") = Raise ValueError)
  /\ exists e',
      format_full_message repr_halves int_of_digits utc_fromtimestamp
        example_feed_bad_key = Raise e'
      /\ example_main E first_run = (Raise e', first_run).
Proof.
  intros E.
  assert (Hhash : content_hash_of example_feed_bad_key = Ok (JStr (u "abc")))
    by (vm_compute; reflexivity).
  assert (Hdiff : hash_eq (JStr (u "abc")) (cached_hash_of first_run) = false)
    by (vm_compute; reflexivity).
  assert (Hfact : fact_data_of example_feed_bad_key
                  = Ok (JDict example_bad_fact_data))
    by (vm_compute; reflexivity).
  assert (Hin : In (u "today") (map fst example_bad_fact_data))
    by (right; left; reflexivity).
  assert (Hbad : int_of_digits (u "today") = Raise ValueError)
    by (vm_compute; reflexivity).
  split; [repeat split; assumption|].
  exact (bad_timestamp_key_raises repr_halves int_of_digits utc_fromtimestamp
           E first_run example_feed_bad_key example_bad_fact_data (u "today")
           ValueError (u "abc") eq_refl Hhash Hdiff Hfact Hin Hbad).
Defined.

Lemma rerun_after_delivery_witness :
  let E := example_env example_feed endpoint_ok in
  let h := u "abc" in
  let w1 := {| marker := None; posts := [example_report] |} in
  let w2 := snd (example_main E first_run) in
  (feed E = Some example_feed
   /\ content_hash_of example_feed = Ok (JStr h)
   /\ hash_eq (JStr h) (cached_hash_of first_run) = false
   /\ format_full_message repr_halves int_of_digits utc_fromtimestamp
        example_feed = Ok (Some example_report)
   /\ example_report <> []
   /\ forallb (file_encodable E) h = true
   /\ (linesep E = [10] \/ linesep E = [13; 10])
   /\ send_telegram_message E example_report first_run = (Ok true, w1)
   /\ strip h = h
   /\ ~ In 13 h)
  /\ marker w2 = Some h
  /\ example_main E w2 = (Ok tt, w2).
Proof.
  intros E h w1 w2.
  assert (Hhash : content_hash_of example_feed = Ok (JStr h))
    by (vm_compute; reflexivity).
  assert (Hdiff : hash_eq (JStr h) (cached_hash_of first_run) = false)
    by (vm_compute; reflexivity).
  assert (Hreport : format_full_message repr_halves int_of_digits
                      utc_fromtimestamp example_feed = Ok (Some example_report))
    by (vm_compute; reflexivity).
  assert (Htext : example_report <> []) by (vm_compute; discriminate).
  assert (Henc : forallb (file_encodable E) h = true)
    by (vm_compute; reflexivity).
  assert (Hsep : linesep E = [10] \/ linesep E = [13; 10])
    by (left; reflexivity).
  assert (Hsend : send_telegram_message E example_report first_run
                  = (Ok true, w1)) by (vm_compute; reflexivity).
  assert (Hclean : strip h = h) by (vm_compute; reflexivity).
  assert (Hcr : ~ In 13 h)
    by (intros H; vm_compute in H; repeat destruct H as [H | H];
        try discriminate H; exact H).
  split; [repeat (split; [first [assumption | reflexivity]|]); assumption|].
  destruct (rerun_after_delivery repr_halves int_of_digits utc_fromtimestamp
              E E first_run w1 example_feed h example_report
              eq_refl eq_refl Hhash Hdiff Hreport Htext Henc Hsep Hsend)
    as (Hmarker & Hnoop & _).
  split; [exact Hmarker | exact (Hnoop Hclean Hcr)].
Defined.

Lemma delivery_stops_at_first_failure_witness :
  let E := example_env example_feed_busy endpoint_first_only in
  (str_truthy (TELEGRAM_BOT_TOKEN E) = true
   /\ str_truthy (TELEGRAM_CHANNEL_ID E) = true)
  /\ send_telegram_message E busy_report first_run
     = (Ok false, {| marker := None; posts := busy_sections |})
  /\ exists k,
      (k <= length (message_parts busy_report))%nat
      /\ posts (snd (send_telegram_message E busy_report first_run))
         = posts first_run ++ firstn k (message_parts busy_report).
Proof.
  intros E; split; [split; reflexivity|].
  split; [vm_compute; reflexivity|].
  destruct (delivery_stops_at_first_failure E busy_report first_run
              eq_refl eq_refl) as (_ & k & Hk & Hposts & _).
  exists k; split; assumption.
Defined.


Lemma message_without_separator_one_part_witness :
  let message := repeat 97 5000 in
  ~ occurs group_separator message
  /\ 4000 < Z.of_nat (length message)
  /\ message_parts message = [message].
Proof.
  intros message.
  assert (H : ~ occurs group_separator message)
    by (apply find_sep_none; vm_compute; reflexivity).
  split; [exact H|].
  split; [vm_compute; reflexivity|].
  exact (message_without_separator_one_part message H).
Defined.

Lemma build_schedule_reads_hours_only_witness :
  let d1 := [ (u "1", JStr s_no) ] in
  let d2 := [ (u "0", JStr s_no); (u "1", JStr s_no); (u "25", JStr s_no);
              (u "01", JStr s_no); (u "night", JStr s_no) ] in
  (forall hour, 1 <= hour <= 24 ->
     dict_lookup d1 (str_of_int hour) = dict_lookup d2 (str_of_int hour))
  /\ build_schedule d1 = build_schedule d2.
Proof.
  intros d1 d2.
  assert (H : forall hour, 1 <= hour <= 24 ->
                dict_lookup d1 (str_of_int hour)
                = dict_lookup d2 (str_of_int hour)).
  { intros hour Hh.
    assert (Hin : In hour (range 1 25)) by (apply range_In; lia).
    vm_compute in Hin.
    repeat (destruct Hin as [<- | Hin]; [vm_compute; reflexivity|]).
    contradiction. }
  split; [exact H|].
  exact (build_schedule_reads_hours_only d1 d2 H).
Defined.

Lemma all_on_day_single_period_witness :
  let day_data := [ (u "3", JStr s_maybe); (u "7", JStr (u "later"));
                    (u "9", JNull) ] in
  (forall hour, 1 <= hour <= 24 ->
     interpret (dict_get day_data (str_of_int hour) (JStr s_yes))
     = (true, true))
  /\ build_schedule day_data
     = [ {| start := u "00:00"; end_ := u "24:00"; is_on := true;
            hours := float_24 |} ].
Proof.
  intros day_data.
  assert (H : forall hour, 1 <= hour <= 24 ->
                interpret (dict_get day_data (str_of_int hour) (JStr s_yes))
                = (true, true)).
  { intros hour Hh.
    assert (Hin : In hour (range 1 25)) by (apply range_In; lia).
    vm_compute in Hin.
    repeat (destruct Hin as [<- | Hin]; [vm_compute; reflexivity|]).
    contradiction. }
  split; [exact H|].
  exact (all_on_day_single_period day_data H).
Defined.

Lemma format_hours_half_hours_witness :
  0 <= 39 <= 48
  /\ format_hours repr_halves (PyFloat (half_hours 39))
     = Ok (u "19.5 години").
Proof.
  split; [lia|].
  rewrite (format_hours_half_hours repr_halves 39) by lia.
  vm_compute; reflexivity.
Defined.


Lemma sorted_days_ascending_witness :
  let keys := [u "10"; u "9"; u "1700000000"] in
  let days := [u "9"; u "10"; u "1700000000"] in
  sorted_by_int int_of_digits keys = Ok days
  /\ Permutation keys days
  /\ exists values,
      mapM int_of_digits days = Ok values /\ StronglySorted Z.le values.
Proof.
  intros keys days.
  assert (H : sorted_by_int int_of_digits keys = Ok days)
    by (vm_compute; reflexivity).
  split; [exact H|].
  exact (sorted_days_ascending int_of_digits keys days H).
Defined.

Lemma report_reads_two_earliest_days_witness :
  let days := [u "1700000000"; u "1700086400"] in
  (fact_data_of example_feed_busy = Ok (JDict busy_fact_data_days)
   /\ fact_data_of example_feed_three_days = Ok (JDict three_days_fact_data)
   /\ busy_fact_data_days <> [] /\ three_days_fact_data <> []
   /\ sorted_by_int int_of_digits (map fst busy_fact_data_days) = Ok days
   /\ sorted_by_int int_of_digits (map fst three_days_fact_data)
      = Ok (days ++ [u "1700172800"]))
  /\ format_full_message repr_halves int_of_digits utc_fromtimestamp
       example_feed_three_days = Ok (Some busy_report)
  /\ format_full_message repr_halves int_of_digits utc_fromtimestamp
       example_feed_busy
     = format_full_message repr_halves int_of_digits utc_fromtimestamp
         example_feed_three_days.
Proof.
  intros days.
  assert (Hf1 : fact_data_of example_feed_busy = Ok (JDict busy_fact_data_days))
    by (vm_compute; reflexivity).
  assert (Hf2 : fact_data_of example_feed_three_days
                = Ok (JDict three_days_fact_data))
    by (vm_compute; reflexivity).
  assert (Hne1 : busy_fact_data_days <> []) by discriminate.
  assert (Hne2 : three_days_fact_data <> []) by discriminate.
  assert (Hs1 : sorted_by_int int_of_digits (map fst busy_fact_data_days)
                = Ok days) by (vm_compute; reflexivity).
  assert (Hs2 : sorted_by_int int_of_digits (map fst three_days_fact_data)
                = Ok (days ++ [u "1700172800"])) by (vm_compute; reflexivity).
  split; [repeat (split; [assumption|]); assumption|].
  split; [vm_compute; reflexivity|].
  apply (report_reads_two_earliest_days repr_halves int_of_digits
           utc_fromtimestamp example_feed_busy example_feed_three_days
           busy_fact_data_days three_days_fact_data days
           (days ++ [u "1700172800"]) Hf1 Hf2 Hne1 Hne2 Hs1 Hs2 eq_refl).
  intros day_ts Hin; simpl in Hin.
  destruct Hin as [<- | [<- | []]]; vm_compute; reflexivity.
Defined.

(** ** Hashes the marker file does not take as they are *)

(** A contentHash that is a JSON list: the report is delivered, then
    [write] rejects the list and the marker file is left empty. *)
Lemma list_hash_empties_marker :
  example_main
    (example_env (example_feed_with_hash (JList [JStr (u "abc")])) endpoint_ok)
    first_run
  = (Raise TypeError, {| marker := Some []; posts := [example_report] |}).
Proof. vm_compute; reflexivity. Qed.

(** A contentHash with a lone surrogate after its first sixteen characters:
    the report is delivered, then the hash cannot be encoded and the marker
    file is left empty. *)
Lemma surrogate_hash_empties_marker :
  example_main
    (example_env
       (example_feed_with_hash (JStr (repeat 97 20 ++ [55296]))) endpoint_ok)
    first_run
  = (Raise UnicodeEncodeError,
     {| marker := Some []; posts := [example_report] |}).
Proof. vm_compute; reflexivity. Qed.

(** A contentHash with a carriage return is stored as it is and read back
    with a line feed: the second run delivers the report again. *)
Lemma carriage_return_hash_delivered_twice :
  let E := example_env (example_feed_with_hash (JStr [97; 13; 98]))
             endpoint_ok in
  let w2 := snd (example_main E first_run) in
  w2 = {| marker := Some [97; 13; 98]; posts := [example_report] |}
  /\ cached_hash_of w2 = Some [97; 10; 98]
  /\ example_main E w2
     = (Ok tt, {| marker := Some [97; 13; 98];
                  posts := [example_report; example_report] |}).
Proof. intros E w2; repeat split; vm_compute; reflexivity. Qed.
